(** * GitHub Images Manager: the catalog synchronisation core

    A shallow embedding of [src/app/services/github.ts] (with the record types
    of the repository's [types] module) and the properties of its upload and
    delete orchestrators, catalog decoding, filename generation and file
    validation.

    Conventions of the embedding.
    - A JavaScript string is a [string]; one [ascii] stands for one code unit.
      The only place where the code looks inside a string character by
      character is the sanitising regular expression, which has no [u] flag
      and therefore works code unit by code unit.
    - [Date.now()] is an integer number of milliseconds, a [Z]; its range
      (at most 8.64e15 in absolute value) is one that a template literal
      prints in plain decimal.
    - A value thrown by JavaScript code is a [Thrown]; a computation that may
      throw returns an [Outcome].
    - The remote store, the clock and the build-time environment are an
      explicit [Env]; the requests issued so far are kept in the [World]. *)

From Stdlib Require Import String Ascii List ZArith NArith Bool Lia.
From Stdlib Require Import DecimalString DecimalPos DecimalZ.
Import ListNotations.
Open Scope string_scope.

(* ================================================================= *)
(** ** Strings *)

Module Str.

(** [s.split(sep)] for a one-character separator. *)
Fixpoint split (sep : ascii) (s : string) : list string :=
  match s with
  | EmptyString => [EmptyString]
  | String c rest =>
      if Ascii.eqb c sep then EmptyString :: split sep rest
      else match split sep rest with
           | [] => [String c EmptyString]
           | piece :: pieces => String c piece :: pieces
           end
  end.

(** Character-wise map, the shape of [s.replace(/[...]/g, f)] for a
    one-character class. *)
Fixpoint map (f : ascii -> ascii) (s : string) : string :=
  match s with
  | EmptyString => EmptyString
  | String c rest => String (f c) (map f rest)
  end.

Fixpoint forallb (p : ascii -> bool) (s : string) : bool :=
  match s with
  | EmptyString => true
  | String c rest => p c && forallb p rest
  end.

(** The text after the first occurrence of [sep] (the empty string when
    [sep] does not occur). *)
Fixpoint afterFirst (sep : ascii) (s : string) : string :=
  match s with
  | EmptyString => EmptyString
  | String c rest => if Ascii.eqb c sep then rest else afterFirst sep rest
  end.

(** A string used as a condition: the empty string is falsy. *)
Definition truthy (s : string) : bool :=
  match s with
  | EmptyString => false
  | String _ _ => true
  end.

(** Template-literal rendering of an integer: [`${n}`]. *)
Definition ofZ (n : Z) : string := NilZero.string_of_int (Z.to_int n).

End Str.

(* ================================================================= *)
(** ** Thrown values and outcomes *)

(** What a [catch] clause of the module can receive.  [axios.isAxiosError]
    holds exactly of [AxiosError]; [instanceof Error] holds of [JsError]
    (which covers [TypeError], [SyntaxError] and [DOMException]); [NonError]
    is any other thrown or rejected value, such as the progress event a
    [FileReader] rejects with. *)
Inductive Thrown : Type :=
| AxiosError (status : option Z) (dataMessage : option string) (message : string)
| JsError (message : string)
| NonError.

Inductive Outcome (A : Type) : Type :=
| Ok (a : A)
| Throw (e : Thrown).
Arguments Ok {A} a.
Arguments Throw {A} e.

(** [a || b] on an optional string and a string. *)
Definition orElse (a : option string) (b : string) : string :=
  match a with
  | Some s => if Str.truthy s then s else b
  | None => b
  end.

Definition statusIs (status : option Z) (code : Z) : bool :=
  match status with
  | Some s => Z.eqb s code
  | None => false
  end.

(** [getErrorMessage], lines 231-252. *)
Definition getErrorMessage (error : Thrown) : string :=
  match error with
  | AxiosError status dataMessage message =>
      if statusIs status 401 then
        "Authentication failed. Please check your GitHub token."
      else if statusIs status 403 then
        "Access denied. Your token may lack the required permissions."
      else if statusIs status 404 then
        "Repository not found. Please check the repository name."
      else if statusIs status 422 then
        "File already exists or invalid request."
      else orElse dataMessage message
  | JsError message => message
  | NonError => "An unexpected error occurred."
  end.

(* ================================================================= *)
(** ** Files and validation *)

(** The browser [File] as the module uses it.  [dataURL] is what
    [FileReader.readAsDataURL] delivers, [None] when the reader fires
    [onerror]. *)
Record File : Type := mkFile {
  file_name : string;
  file_type : string;
  file_size : N;
  file_dataURL : option string
}.

Record Validation : Type := mkValidation {
  valid : bool;
  validation_error : option string
}.

Definition allowedTypes : list string := ["image/jpeg"; "image/png"; "image/gif"].

Definition maxSize : N := 10 * 1024 * 1024.

(** [allowedTypes.includes(t)]. *)
Definition includes (l : list string) (t : string) : bool :=
  existsb (String.eqb t) l.

Definition invalidTypeMessage : string :=
  "Invalid file type. Please upload a JPG, PNG, or GIF image.".

Definition tooLargeMessage : string :=
  "File size exceeds 10MB limit. Please choose a smaller image.".

(** [validateImageFile], lines 255-274. *)
Definition validateImageFile (file : File) : Validation :=
  if negb (includes allowedTypes (file_type file)) then
    {| valid := false; validation_error := Some invalidTypeMessage |}
  else if (maxSize <? file_size file)%N then
    {| valid := false; validation_error := Some tooLargeMessage |}
  else
    {| valid := true; validation_error := None |}.

(* ================================================================= *)
(** ** Filename generation *)

Definition isUpper (c : ascii) : bool :=
  let n := nat_of_ascii c in ((65 <=? n) && (n <=? 90))%nat.

Definition isLower (c : ascii) : bool :=
  let n := nat_of_ascii c in ((97 <=? n) && (n <=? 122))%nat.

Definition isDigit (c : ascii) : bool :=
  let n := nat_of_ascii c in ((48 <=? n) && (n <=? 57))%nat.

(** Membership in the character class [[a-zA-Z0-9.-]]. *)
Definition inNameClass (c : ascii) : bool :=
  isLower c || isUpper c || isDigit c || Ascii.eqb c "." || Ascii.eqb c "-".

(** [name.replace(/[^a-zA-Z0-9.-]/g, '_')], line 104. *)
Definition sanitizeName (name : string) : string :=
  Str.map (fun c => if inNameClass c then c else "_"%char) name.

(** [`${Date.now()}_${sanitizedName}`], line 105. *)
Definition makeFilename (now : Z) (originalName : string) : string :=
  Str.ofZ now ++ "_" ++ sanitizeName originalName.

(** Removing the timestamp prefix and the underscore that separates it from
    the sanitised name. *)
Definition stripTimestamp (filename : string) : string :=
  Str.afterFirst "_" filename.

(** The pattern [^[A-Za-z0-9.-]*$]. *)
Definition matchesNameClass (s : string) : bool :=
  Str.forallb inNameClass s.

(** The pattern [^[A-Za-z0-9._-]*$]. *)
Definition matchesNameClassOrUnderscore (s : string) : bool :=
  Str.forallb (fun c => inNameClass c || Ascii.eqb c "_") s.

(* ================================================================= *)
(** ** Values produced by [JSON.parse] *)

(** The result of [JSON.parse].  A number is kept as its literal: the module
    never computes with one.  An object lists each of its keys once, in
    insertion order. *)
#[local] Set Warnings "-register-all".
Inductive JsValue : Type :=
| JNull
| JBool (b : bool)
| JNum (literal : string)
| JStr (s : string)
| JArr (items : list JsValue)
| JObj (fields : list (string * JsValue)).
#[local] Set Warnings "+register-all".

Module Js.

Fixpoint assoc (key : string) (fields : list (string * JsValue)) : option JsValue :=
  match fields with
  | [] => None
  | (k, v) :: rest => if String.eqb k key then Some v else assoc key rest
  end.

(** Assignment to a property: an existing key keeps its position, a new key
    goes last. *)
Fixpoint update (key : string) (v : JsValue) (fields : list (string * JsValue))
  : list (string * JsValue) :=
  match fields with
  | [] => [(key, v)]
  | (k, old) :: rest =>
      if String.eqb k key then (k, v) :: rest else (k, old) :: update key v rest
  end.

(** [v.key] for the two keys the module reads, [images] and [filename]:
    [None] is [undefined].  Neither key is a property of a string, number,
    boolean or array; reading a property of [null] throws. *)
Definition get (v : JsValue) (key : string) : Outcome (option JsValue) :=
  match v with
  | JNull =>
      Throw (JsError ("Cannot read properties of null (reading '" ++ key ++ "')"))
  | JObj fields => Ok (assoc key fields)
  | _ => Ok None
  end.

(** [v !== s] for a string [s]. *)
Definition strictNotEqual (v : option JsValue) (s : string) : bool :=
  match v with
  | Some (JStr s') => negb (String.eqb s' s)
  | _ => true
  end.

End Js.

(** The records of the [types] module. *)
Record ImageMetadata : Type := mkImage {
  filename : string;
  description : string;
  url : string;
  timestamp : string;
  sha : option string
}.

Record GitHubFileResponse : Type := mkFileResponse {
  gh_content : string;
  gh_sha : string;
  gh_name : string;
  gh_path : string;
  gh_download_url : string
}.

Record UploadResult : Type := mkUploadResult {
  upload_success : bool;
  upload_url : option string;
  upload_error : option string
}.

Record DeleteResult : Type := mkDeleteResult {
  delete_success : bool;
  delete_error : option string
}.

(** An [ImageMetadata] object as a JSON value; an absent [sha] is no field. *)
Definition imageToJs (e : ImageMetadata) : JsValue :=
  JObj ([("filename", JStr (filename e));
         ("description", JStr (description e));
         ("url", JStr (url e));
         ("timestamp", JStr (timestamp e))]
        ++ match sha e with
           | Some s => [("sha", JStr s)]
           | None => []
           end).

(** A catalog is the sequence of its entries, newest first; as a document it
    is an object with the single field [images]. *)
Definition Catalog : Type := list ImageMetadata.

Definition catalogToJs (c : Catalog) : JsValue :=
  JObj [("images", JArr (List.map imageToJs c))].

(** [{ images: [] }]. *)
Definition emptyMetadata : JsValue := JObj [("images", JArr [])].

(** [metadata.images] as the receiver of the array method [method]: the
    array, or the [TypeError] the call raises when [metadata.images] is not
    an array (no value that [JSON.parse] returns other than an array has an
    [unshift] or [filter] method). *)
Definition imagesArray (method : string) (metadata : JsValue)
  : Outcome (list JsValue) :=
  match Js.get metadata "images" with
  | Throw e => Throw e
  | Ok None =>
      Throw (JsError ("Cannot read properties of undefined (reading '" ++ method ++ "')"))
  | Ok (Some JNull) =>
      Throw (JsError ("Cannot read properties of null (reading '" ++ method ++ "')"))
  | Ok (Some (JArr items)) => Ok items
  | Ok (Some _) => Throw (JsError ("metadata.images." ++ method ++ " is not a function"))
  end.

(** [metadata] once its [images] array holds [items]. *)
Definition setImages (metadata : JsValue) (items : list JsValue) : JsValue :=
  match metadata with
  | JObj fields => JObj (Js.update "images" (JArr items) fields)
  | other => other
  end.

(** [metadata.images.unshift(newImage)], line 140; the result is [metadata]
    after the call. *)
Definition prependEntry (metadata : JsValue) (newImage : JsValue) : Outcome JsValue :=
  match imagesArray "unshift" metadata with
  | Throw e => Throw e
  | Ok items => Ok (setImages metadata (newImage :: items))
  end.

(** [images.filter((img) => img.filename !== name)]. *)
Fixpoint filterByFilename (images : list JsValue) (name : string)
  : Outcome (list JsValue) :=
  match images with
  | [] => Ok []
  | img :: rest =>
      match Js.get img "filename" with
      | Throw e => Throw e
      | Ok f =>
          match filterByFilename rest name with
          | Throw e => Throw e
          | Ok kept => Ok (if Js.strictNotEqual f name then img :: kept else kept)
          end
      end
  end.

(** [metadata.images = metadata.images.filter(...)], line 197; the result is
    [metadata] after the assignment. *)
Definition removeByFilename (metadata : JsValue) (name : string) : Outcome JsValue :=
  match imagesArray "filter" metadata with
  | Throw e => Throw e
  | Ok items =>
      match filterByFilename items name with
      | Throw e => Throw e
      | Ok kept => Ok (setImages metadata kept)
      end
  end.

(* ================================================================= *)
(** ** The host: runtime library, environment, remote store *)

(** Functions of the JavaScript runtime that the module calls and that are
    not part of the repository.  [atob], [btoa] and [JSON.parse] may throw. *)
Class Runtime : Type := {
  atob : string -> Outcome string;
  btoa : string -> Outcome string;
  JSON_parse : string -> Outcome JsValue;
  (** [JSON.stringify(value, null, 2)] *)
  JSON_stringify : JsValue -> string;
  (** [new Date(ms).toISOString()] *)
  toISOString : Z -> string
}.

(** Request bodies.  A field that is [undefined] is absent from the body. *)
Record PutPayload : Type := mkPut {
  put_message : string;
  put_content : option string;
  put_branch : string;
  put_sha : option string
}.

Record DeletePayload : Type := mkDelete {
  del_message : string;
  del_sha : string;
  del_branch : string
}.

(** The requests the module sends, by the parts of their URL
    ([/repos/<repo>/contents/<path>], for [GET] followed by
    [?ref=<branch>&t=<t>]) and their body.  The headers are those fixed by
    [createApiClient] on every request. *)
Inductive Request : Type :=
| GET (repo path branch : string) (t : Z)
| PUT (repo path : string) (payload : PutPayload)
| DELETE (repo path : string) (payload : DeletePayload).

(** A successful response: [response.data] read as a [GitHubFileResponse],
    and [response.data.content.sha], which a write answers with. *)
Record Response : Type := mkResponse {
  data : GitHubFileResponse;
  data_content_sha : option string
}.

(** Everything outside the module: the build-time variables, the clock (its
    successive readings) and the remote store, which answers a request
    knowing the requests made before it. *)
Record Env : Type := mkEnv {
  VITE_GITHUB_TOKEN : option string;
  VITE_GITHUB_REPO : option string;
  VITE_GITHUB_BRANCH : option string;
  clock : nat -> Z;
  respond : list Request -> Request -> Outcome Response
}.

(** What a run has done so far. *)
Record World : Type := mkWorld {
  trace : list Request;
  clockReads : nat
}.

Definition initialWorld : World := {| trace := []; clockReads := 0 |}.

(** A computation: it may throw, and it may send requests and read the
    clock. *)
Definition M (A : Type) : Type := World -> Outcome A * World.

Definition ret {A} (a : A) : M A := fun w => (Ok a, w).

Definition throw {A} (e : Thrown) : M A := fun w => (Throw e, w).

Definition bind {A B} (c : M A) (k : A -> M B) : M B :=
  fun w =>
    match c w with
    | (Ok a, w') => k a w'
    | (Throw e, w') => (Throw e, w')
    end.

(** [try { body } catch (error) { handler }] *)
Definition tryCatch {A} (body : M A) (handler : Thrown -> M A) : M A :=
  fun w =>
    match body w with
    | (Ok a, w') => (Ok a, w')
    | (Throw e, w') => handler e w'
    end.

Definition lift {A} (o : Outcome A) : M A := fun w => (o, w).

Declare Scope js_scope.
Delimit Scope js_scope with js.
Notation "x <- c ;; k" := (bind c (fun x => k))
  (at level 61, c at next level, right associativity) : js_scope.
Notation "c ;;; k" := (bind c (fun _ => k))
  (at level 61, right associativity) : js_scope.

Record Config : Type := mkConfig {
  cfg_token : string;
  cfg_repo : string;
  cfg_branch : string
}.

Definition missingConfigMessage : string :=
  "Missing required environment variables: VITE_GITHUB_TOKEN and VITE_GITHUB_REPO".

(** Index 1 of [result.split(',')], [undefined] when there is no comma. *)
Definition afterComma (dataURL : string) : option string :=
  nth_error (Str.split "," dataURL) 1.

(** The catalog's path in the repository. *)
Definition metadataPath : string := "metadata.json".

Definition imagePathOf (name : string) : string := "images/" ++ name.

(** A catalog read: a [GET] of [metadata.json]. *)
Definition isCatalogFetch (r : Request) : bool :=
  match r with
  | GET _ path _ _ => String.eqb path metadataPath
  | _ => false
  end.

(** A catalog write: a [PUT] of [metadata.json]. *)
Definition isCatalogWrite (r : Request) : bool :=
  match r with
  | PUT _ path _ => String.eqb path metadataPath
  | _ => false
  end.

Definition isDelete (r : Request) : bool :=
  match r with
  | DELETE _ _ _ => true
  | _ => false
  end.

Definition count (p : Request -> bool) (l : list Request) : nat :=
  List.length (List.filter p l).

Section Service.

Context {runtime : Runtime}.
Variable env : Env.

Open Scope js_scope.

(** [Date.now()], and the instant of [new Date()]. *)
Definition dateNow : M Z :=
  fun w => (Ok (clock env (clockReads w)),
            {| trace := trace w; clockReads := S (clockReads w) |}).

(** One call through the API client: the request joins the trace and the
    store answers it. *)
Definition send (r : Request) : M Response :=
  fun w => (respond env (trace w) r,
            {| trace := trace w ++ [r]; clockReads := clockReads w |}).

(** [getConfig], lines 7-17. *)
Definition getConfig : Outcome Config :=
  let token := VITE_GITHUB_TOKEN env in
  let repo := VITE_GITHUB_REPO env in
  let branch := orElse (VITE_GITHUB_BRANCH env) "main" in
  match token, repo with
  | Some token, Some repo =>
      if negb (Str.truthy token) || negb (Str.truthy repo)
      then Throw (JsError missingConfigMessage)
      else Ok {| cfg_token := token; cfg_repo := repo; cfg_branch := branch |}
  | _, _ => Throw (JsError missingConfigMessage)
  end.

(** [createApiClient], lines 20-30: it reads the configuration, which may
    throw; the client itself is the [send] above. *)
Definition createApiClient : Outcome unit :=
  match getConfig with
  | Ok _ => Ok tt
  | Throw e => Throw e
  end.

(** [getGitHubUrl], lines 33-36. *)
Definition getGitHubUrl (name : string) : Outcome string :=
  match getConfig with
  | Ok cfg =>
      Ok ("https://github.com/" ++ cfg_repo cfg ++ "/blob/" ++ cfg_branch cfg
          ++ "/images/" ++ name ++ "?raw=true")
  | Throw e => Throw e
  end.

(** [error] is an axios error whose response has status 404. *)
Definition isNotFound (error : Thrown) : bool :=
  match error with
  | AxiosError status _ _ => statusIs status 404
  | _ => false
  end.

(** [fetchFile], lines 39-52. *)
Definition fetchFile (path : string) : M (option GitHubFileResponse) :=
  tryCatch
    (cfg <- lift getConfig ;;
     lift createApiClient ;;;
     t <- dateNow ;;
     response <- send (GET (cfg_repo cfg) path (cfg_branch cfg) t) ;;
     ret (Some (data response)))
    (fun error =>
       if isNotFound error then ret None else throw error).

(** [fetchMetadata], lines 55-67. *)
Definition fetchMetadata : M JsValue :=
  tryCatch
    (file <- fetchFile metadataPath ;;
     match file with
     | None => ret emptyMetadata
     | Some file =>
         content <- lift (atob (gh_content file)) ;;
         lift (JSON_parse content)
     end)
    (fun error => ret emptyMetadata).

(** [createOrUpdateFile], lines 70-91.  [sha] is included in the body only
    when it is given and truthy. *)
Definition createOrUpdateFile (path content message : string) (sha : option string)
  : M GitHubFileResponse :=
  cfg <- lift getConfig ;;
  lift createApiClient ;;;
  encoded <- lift (btoa content) ;;
  let payload :=
    {| put_message := message;
       put_content := Some encoded;
       put_branch := cfg_branch cfg;
       put_sha := match sha with
                  | Some s => if Str.truthy s then Some s else None
                  | None => None
                  end |} in
  response <- send (PUT (cfg_repo cfg) path payload) ;;
  ret (data response).

(** [fileToBase64], lines 216-228. *)
Definition fileToBase64 (file : File) : Outcome (option string) :=
  match file_dataURL file with
  | Some result => Ok (afterComma result)
  | None => Throw NonError
  end.

(** The catalog synchronisation of [uploadImage], lines 120-148. *)
Definition uploadCatalogStep
    (name description imageUrl timestamp : string) (blobSha : option string)
  : M unit :=
  existingMetadataFile <- fetchFile metadataPath ;;
  metadata <- match existingMetadataFile with
              | Some file =>
                  tryCatch
                    (content <- lift (atob (gh_content file)) ;;
                     lift (JSON_parse content))
                    (fun _ => ret emptyMetadata)
              | None => ret emptyMetadata
              end ;;
  let newImage :=
    {| filename := name;
       description := description;
       url := imageUrl;
       timestamp := timestamp;
       sha := blobSha |} in
  metadata <- lift (prependEntry metadata (imageToJs newImage)) ;;
  createOrUpdateFile metadataPath (JSON_stringify metadata)
    ("Add image: " ++ name) (option_map gh_sha existingMetadataFile) ;;;
  ret tt.

(** The body of the [try] of [uploadImage], lines 99-150. *)
Definition uploadBody (file : File) (description : string) : M UploadResult :=
  cfg <- lift getConfig ;;
  lift createApiClient ;;;
  created <- dateNow ;;
  let timestamp := toISOString created in
  now <- dateNow ;;
  let name := makeFilename now (file_name file) in
  let path := imagePathOf name in
  base64Content <- lift (fileToBase64 file) ;;
  uploadResponse <-
    send (PUT (cfg_repo cfg) path
            {| put_message := "Upload image: " ++ name;
               put_content := base64Content;
               put_branch := cfg_branch cfg;
               put_sha := None |}) ;;
  imageUrl <- lift (getGitHubUrl name) ;;
  uploadCatalogStep name description imageUrl timestamp
    (data_content_sha uploadResponse) ;;;
  ret {| upload_success := true; upload_url := Some imageUrl; upload_error := None |}.

(** [uploadImage], lines 94-156. *)
Definition uploadImage (file : File) (description : string) : M UploadResult :=
  tryCatch (uploadBody file description)
    (fun error =>
       let message := getErrorMessage error in
       ret {| upload_success := false; upload_url := None;
              upload_error := Some message |}).

(** The lookup and removal of the blob in [deleteImage], lines 164-177. *)
Definition deleteBlobStep (cfg : Config) (image : ImageMetadata) : M unit :=
  let imagePath := imagePathOf (filename image) in
  imageFile <- fetchFile imagePath ;;
  match imageFile with
  | Some imageFile =>
      send (DELETE (cfg_repo cfg) imagePath
              {| del_message := "Delete image: " ++ filename image;
                 del_sha := gh_sha imageFile;
                 del_branch := cfg_branch cfg |}) ;;;
      ret tt
  | None => ret tt
  end.

(** The catalog synchronisation of [deleteImage], lines 179-207. *)
Definition deleteCatalogStep (image : ImageMetadata) : M DeleteResult :=
  metadataFile <- fetchFile metadataPath ;;
  match metadataFile with
  | None => ret {| delete_success := true; delete_error := None |}
  | Some metadataFile =>
      metadata <- tryCatch
                    (content <- lift (atob (gh_content metadataFile)) ;;
                     lift (JSON_parse content))
                    (fun _ => ret emptyMetadata) ;;
      metadata <- lift (removeByFilename metadata (filename image)) ;;
      createOrUpdateFile metadataPath (JSON_stringify metadata)
        ("Remove image: " ++ filename image) (Some (gh_sha metadataFile)) ;;;
      ret {| delete_success := true; delete_error := None |}
  end.

(** The body of the [try] of [deleteImage], lines 161-207. *)
Definition deleteBody (image : ImageMetadata) : M DeleteResult :=
  cfg <- lift getConfig ;;
  lift createApiClient ;;;
  deleteBlobStep cfg image ;;;
  deleteCatalogStep image.

(** [deleteImage], lines 159-213. *)
Definition deleteImage (image : ImageMetadata) : M DeleteResult :=
  tryCatch (deleteBody image)
    (fun error =>
       let message := getErrorMessage error in
       ret {| delete_success := false; delete_error := Some message |}).

End Service.

(* ================================================================= *)
(** ** The components that call the service *)

(** The truth value of an optional string: [undefined] and the empty string
    are falsy. *)
Definition truthyVariable (v : option string) : bool :=
  match v with
  | Some s => Str.truthy s
  | None => false
  end.

(** [ImageManager], lines 14-15 of [ImageManager.tsx]: the truth value of
    [import.meta.env.VITE_GITHUB_TOKEN && import.meta.env.VITE_GITHUB_REPO]. *)
Definition hasConfig (env : Env) : bool :=
  truthyVariable (VITE_GITHUB_TOKEN env) && truthyVariable (VITE_GITHUB_REPO env).

(** A message shown to the user, [{ type, text }]. *)
Inductive NoticeType : Type := NoticeSuccess | NoticeError.

Record Notice : Type := mkNotice {
  notice_type : NoticeType;
  notice_text : option string
}.

Definition successNotice (text : string) : Notice :=
  {| notice_type := NoticeSuccess; notice_text := Some text |}.

Definition errorNotice (text : string) : Notice :=
  {| notice_type := NoticeError; notice_text := Some text |}.

(** [UploadComponent].  A handler is a function on the state variables of
    the component; each [set...] below is the setter that [useState]
    returns.  [handleUpload] is taken as one step: the state it leaves once
    the awaited [uploadImage] has settled, no other event in between. *)
Module UploadComponent.

Record State : Type := mkState {
  selectedFile : option File;
  preview : option string;
  descriptionText : string;
  isUploading : bool;
  uploadedUrl : option string;
  message : option Notice;
  isDragging : bool;
  copySuccess : bool
}.

Definition initial : State :=
  {| selectedFile := None; preview := None; descriptionText := "";
     isUploading := false; uploadedUrl := None; message := None;
     isDragging := false; copySuccess := false |}.

Definition setSelectedFile (v : option File) (st : State) : State :=
  {| selectedFile := v; preview := preview st;
     descriptionText := descriptionText st; isUploading := isUploading st;
     uploadedUrl := uploadedUrl st; message := message st;
     isDragging := isDragging st; copySuccess := copySuccess st |}.

Definition setPreview (v : option string) (st : State) : State :=
  {| selectedFile := selectedFile st; preview := v;
     descriptionText := descriptionText st; isUploading := isUploading st;
     uploadedUrl := uploadedUrl st; message := message st;
     isDragging := isDragging st; copySuccess := copySuccess st |}.

Definition setDescription (v : string) (st : State) : State :=
  {| selectedFile := selectedFile st; preview := preview st;
     descriptionText := v; isUploading := isUploading st;
     uploadedUrl := uploadedUrl st; message := message st;
     isDragging := isDragging st; copySuccess := copySuccess st |}.

Definition setIsUploading (v : bool) (st : State) : State :=
  {| selectedFile := selectedFile st; preview := preview st;
     descriptionText := descriptionText st; isUploading := v;
     uploadedUrl := uploadedUrl st; message := message st;
     isDragging := isDragging st; copySuccess := copySuccess st |}.

Definition setUploadedUrl (v : option string) (st : State) : State :=
  {| selectedFile := selectedFile st; preview := preview st;
     descriptionText := descriptionText st; isUploading := isUploading st;
     uploadedUrl := v; message := message st;
     isDragging := isDragging st; copySuccess := copySuccess st |}.

Definition setMessage (v : option Notice) (st : State) : State :=
  {| selectedFile := selectedFile st; preview := preview st;
     descriptionText := descriptionText st; isUploading := isUploading st;
     uploadedUrl := uploadedUrl st; message := v;
     isDragging := isDragging st; copySuccess := copySuccess st |}.

Definition setIsDragging (v : bool) (st : State) : State :=
  {| selectedFile := selectedFile st; preview := preview st;
     descriptionText := descriptionText st; isUploading := isUploading st;
     uploadedUrl := uploadedUrl st; message := message st;
     isDragging := v; copySuccess := copySuccess st |}.

Definition setCopySuccess (v : bool) (st : State) : State :=
  {| selectedFile := selectedFile st; preview := preview st;
     descriptionText := descriptionText st; isUploading := isUploading st;
     uploadedUrl := uploadedUrl st; message := message st;
     isDragging := isDragging st; copySuccess := v |}.

(** [handleFileSelect], lines 344-359 of the components file.  The preview
    is the one the reader delivers; a reader that fails never calls
    [onload] and leaves the preview as it was. *)
Definition handleFileSelect (file : File) (st : State) : State :=
  let validation := validateImageFile file in
  if negb (valid validation) then
    setMessage
      (Some {| notice_type := NoticeError;
               notice_text := validation_error validation |}) st
  else
    let st := setSelectedFile (Some file) st in
    let st := setMessage None st in
    let st := setUploadedUrl None st in
    match file_dataURL file with
    | Some result => setPreview (Some result) st
    | None => st
    end.

(** [handleDrop], lines 361-372: the first of the dropped files, if any. *)
Definition handleDrop (files : list File) (st : State) : State :=
  let st := setIsDragging false st in
  match files with
  | file :: _ => handleFileSelect file st
  | [] => st
  end.

(** [handleDragOver] and [handleDragLeave], lines 374-382. *)
Definition handleDragOver (st : State) : State := setIsDragging true st.

Definition handleDragLeave (st : State) : State := setIsDragging false st.

(** [handleInputChange], lines 384-392; [files] may be [null]. *)
Definition handleInputChange (files : option (list File)) (st : State) : State :=
  match files with
  | Some (file :: _) => handleFileSelect file st
  | _ => st
  end.

(** [handleCopyUrl], lines 424-434; [written] tells whether the clipboard
    accepted the text.  The timer it starts resets [copySuccess] later
    ([copyFeedbackExpired]). *)
Definition handleCopyUrl (written : bool) (st : State) : State :=
  if truthyVariable (uploadedUrl st) then
    if written then setCopySuccess true st
    else setMessage (Some (errorNotice "Failed to copy URL to clipboard.")) st
  else st.

Definition copyFeedbackExpired (st : State) : State := setCopySuccess false st.

(** [clearSelection], lines 436-444. *)
Definition clearSelection (st : State) : State :=
  let st := setSelectedFile None st in
  let st := setPreview None st in
  let st := setDescription "" st in
  setMessage None st.

Section Upload.

Context {runtime : Runtime}.
Variable env : Env.

Open Scope js_scope.

(** [handleUpload], lines 394-422.  The second component of the result
    tells whether [onUploadSuccess] was called. *)
Definition handleUpload (st : State) : M (State * bool) :=
  match selectedFile st with
  | None =>
      ret (setMessage (Some (errorNotice "Please select an image to upload.")) st,
           false)
  | Some file =>
      let st := setIsUploading true st in
      let st := setMessage None st in
      let st := setUploadedUrl None st in
      settled <-
        tryCatch
          (result <- uploadImage env file (descriptionText st) ;;
           if upload_success result && truthyVariable (upload_url result) then
             let st := setMessage
                         (Some (successNotice "Image uploaded successfully!")) st in
             let st := setUploadedUrl (upload_url result) st in
             let st := setSelectedFile None st in
             let st := setPreview None st in
             let st := setDescription "" st in
             ret (st, true)
           else
             ret (setMessage
                    (Some (errorNotice (orElse (upload_error result) "Upload failed.")))
                    st, false))
          (fun _ =>
             ret (setMessage
                    (Some (errorNotice "An unexpected error occurred during upload."))
                    st, false)) ;;
      ret (setIsUploading false (fst settled), snd settled)
  end.

(** The states the handlers can produce from the initial one. *)
Inductive Reachable : State -> Prop :=
| reach_initial : Reachable initial
| reach_input files st : Reachable st -> Reachable (handleInputChange files st)
| reach_drop files st : Reachable st -> Reachable (handleDrop files st)
| reach_dragOver st : Reachable st -> Reachable (handleDragOver st)
| reach_dragLeave st : Reachable st -> Reachable (handleDragLeave st)
| reach_description text st : Reachable st -> Reachable (setDescription text st)
| reach_clear st : Reachable st -> Reachable (clearSelection st)
| reach_copy written st : Reachable st -> Reachable (handleCopyUrl written st)
| reach_copyExpired st : Reachable st -> Reachable (copyFeedbackExpired st)
| reach_upload st st' called w w' :
    Reachable st ->
    handleUpload st w = (Ok (st', called), w') ->
    Reachable st'.

End Upload.

End UploadComponent.

(** [GalleryComponent].  [images] holds whatever [metadata.images || []]
    evaluated to.  The functional update of [images] that [handleDelete]
    queues is run by React after the handler, outside its [try]: an error
    it raises is the [Throw] of [handleDelete]. *)
Module GalleryComponent.

Record State : Type := mkState {
  images : JsValue;
  isLoading : bool;
  error : option string;
  deletingImage : option string;
  deleteMessage : option Notice
}.

Definition initial : State :=
  {| images := JArr []; isLoading := true; error := None;
     deletingImage := None; deleteMessage := None |}.

Definition setImages (v : JsValue) (st : State) : State :=
  {| images := v; isLoading := isLoading st; error := error st;
     deletingImage := deletingImage st; deleteMessage := deleteMessage st |}.

Definition setIsLoading (v : bool) (st : State) : State :=
  {| images := images st; isLoading := v; error := error st;
     deletingImage := deletingImage st; deleteMessage := deleteMessage st |}.

Definition setError (v : option string) (st : State) : State :=
  {| images := images st; isLoading := isLoading st; error := v;
     deletingImage := deletingImage st; deleteMessage := deleteMessage st |}.

Definition setDeletingImage (v : option string) (st : State) : State :=
  {| images := images st; isLoading := isLoading st; error := error st;
     deletingImage := v; deleteMessage := deleteMessage st |}.

Definition setDeleteMessage (v : option Notice) (st : State) : State :=
  {| images := images st; isLoading := isLoading st; error := error st;
     deletingImage := deletingImage st; deleteMessage := v |}.

Definition loadFailedMessage : string :=
  "Failed to load images. Please check your configuration.".

(** [prev.filter((img) => img.filename !== name)], line 44. *)
Definition withoutImage (name : string) (prev : JsValue) : Outcome JsValue :=
  match prev with
  | JArr items =>
      match filterByFilename items name with
      | Ok kept => Ok (JArr kept)
      | Throw e => Throw e
      end
  | JNull => Throw (JsError "Cannot read properties of null (reading 'filter')")
  | _ => Throw (JsError "prev.filter is not a function")
  end.

Section Gallery.

Context {runtime : Runtime}.
Variable env : Env.

(** Whether the number with this literal is [0]; it decides the truth value
    of a number, and belongs to the runtime's arithmetic. *)
Variable numberIsZero : string -> bool.

Open Scope js_scope.

(** The truth value of a parsed value, as [||] tests it. *)
Definition truthy (v : JsValue) : bool :=
  match v with
  | JNull => false
  | JBool b => b
  | JNum literal => negb (numberIsZero literal)
  | JStr s => Str.truthy s
  | JArr _ => true
  | JObj _ => true
  end.

(** [metadata.images || []], line 23. *)
Definition imagesOrEmpty (metadata : JsValue) : Outcome JsValue :=
  match Js.get metadata "images" with
  | Throw e => Throw e
  | Ok None => Ok (JArr [])
  | Ok (Some v) => Ok (if truthy v then v else JArr [])
  end.

(** [loadImages], lines 17-30. *)
Definition loadImages (st : State) : M State :=
  let st := setIsLoading true st in
  let st := setError None st in
  st <- tryCatch
          (metadata <- fetchMetadata env ;;
           value <- lift (imagesOrEmpty metadata) ;;
           ret (setImages value st))
          (fun _ => ret (setError (Some loadFailedMessage) st)) ;;
  ret (setIsLoading false st).

(** [handleDelete], lines 36-55. *)
Definition handleDelete (image : ImageMetadata) (st : State) : M State :=
  let st := setDeletingImage (Some (filename image)) st in
  let st := setDeleteMessage None st in
  settled <-
    tryCatch
      (result <- deleteImage env image ;;
       if delete_success result then
         ret (setDeleteMessage
                (Some (successNotice "Image deleted successfully!")) st, true)
       else
         ret (setDeleteMessage
                (Some (errorNotice
                         (orElse (delete_error result) "Failed to delete image.")))
                st, false))
      (fun _ =>
         ret (setDeleteMessage
                (Some (errorNotice "An unexpected error occurred.")) st, false)) ;;
  let st := setDeletingImage None (fst settled) in
  if snd settled then
    updated <- lift (withoutImage (filename image) (images st)) ;;
    ret (setImages updated st)
  else ret st.

End Gallery.

End GalleryComponent.

(* ================================================================= *)
(** ** Vocabulary of the statements *)

(** The request [fetchFile path] sends from world [w], and the world after
    it. *)
Definition fetchRequest (env : Env) (cfg : Config) (path : string) (w : World) : Request :=
  GET (cfg_repo cfg) path (cfg_branch cfg) (clock env (clockReads w)).

Definition afterFetch (env : Env) (cfg : Config) (path : string) (w : World) : World :=
  {| trace := trace w ++ [fetchRequest env cfg path w];
     clockReads := S (clockReads w) |}.

(** The request [createOrUpdateFile] sends for the encoded content
    [encoded]. *)
Definition writeRequest (cfg : Config) (path encoded message : string)
    (sha : option string) : Request :=
  PUT (cfg_repo cfg) path
    {| put_message := message;
       put_content := Some encoded;
       put_branch := cfg_branch cfg;
       put_sha := match sha with
                  | Some s => if Str.truthy s then Some s else None
                  | None => None
                  end |}.

Definition afterSend (r : Request) (w : World) : World :=
  {| trace := trace w ++ [r]; clockReads := clockReads w |}.

(** The value the inline [try]/[catch] around [JSON.parse(atob(...))]
    leaves in [metadata]. *)
Definition decoded {runtime : Runtime} (file : GitHubFileResponse) : JsValue :=
  match atob (gh_content file) with
  | Ok content =>
      match JSON_parse content with
      | Ok v => v
      | Throw _ => emptyMetadata
      end
  | Throw _ => emptyMetadata
  end.

(** The revision token a catalog write carries after a fetch answered with
    [answer]. *)
Definition tokenOf (answer : Outcome Response) : option string :=
  match answer with
  | Ok r => if Str.truthy (gh_sha (data r)) then Some (gh_sha (data r)) else None
  | Throw _ => None
  end.

(** The catalog resource is absent: the fetch is answered with a 404. *)
Definition catalogAbsent (answer : Outcome Response) : bool :=
  match answer with
  | Ok _ => false
  | Throw e => isNotFound e
  end.

(** The entry [uploadImage] builds, lines 133-139. *)
Definition newImageOf (name description imageUrl timestamp : string)
    (blobSha : option string) : ImageMetadata :=
  {| filename := name; description := description; url := imageUrl;
     timestamp := timestamp; sha := blobSha |}.

(** The tail of a catalog synchronisation from world [w]: given the mutated
    catalog (or the error the mutation raised), encode it and send the one
    write. *)
Definition writeBack {runtime : Runtime} (env : Env) (cfg : Config)
    (metadata : Outcome JsValue) (message : string) (sha : option string)
    (w : World) : Outcome unit * World :=
  match metadata with
  | Throw e => (Throw e, w)
  | Ok m =>
      match btoa (JSON_stringify m) with
      | Throw e => (Throw e, w)
      | Ok encoded =>
          let put := writeRequest cfg metadataPath encoded message sha in
          (match respond env (trace w) put with
           | Ok _ => Ok tt
           | Throw e => Throw e
           end, afterSend put w)
      end
  end.

(** A single-attempt read-modify-write: what a run [run] of a catalog
    synchronisation from world [w] did.  It sent the fetch and then nothing,
    or one write carrying the token of that fetch; when it succeeded the
    write was sent (unless [skipWhenAbsent] holds and the catalog was
    absent); when the store refused the write it raised the store's error
    and sent nothing more. *)
Definition SingleAttempt {A : Type} (env : Env) (cfg : Config) (w : World)
    (skipWhenAbsent : bool) (run : Outcome A * World) : Prop :=
  let fetch := fetchRequest env cfg metadataPath w in
  let answer := respond env (trace w) fetch in
  exists issued,
    trace (snd run) = (trace w ++ fetch :: issued)%list
    /\ count isCatalogFetch (fetch :: issued) = 1
    /\ (issued = []
        \/ exists payload,
             issued = [PUT (cfg_repo cfg) metadataPath payload]
             /\ put_sha payload = tokenOf answer)
    /\ (forall a, fst run = Ok a ->
        count isCatalogWrite issued
        = if skipWhenAbsent && catalogAbsent answer then 0 else 1)
    /\ (forall payload e,
        issued = [PUT (cfg_repo cfg) metadataPath payload] ->
        respond env (trace w ++ [fetch])%list (PUT (cfg_repo cfg) metadataPath payload)
        = Throw e ->
        fst run = Throw e).

Definition deleteFailed (error : Thrown) : DeleteResult :=
  {| delete_success := false; delete_error := Some (getErrorMessage error) |}.

Definition deleted : DeleteResult := {| delete_success := true; delete_error := None |}.

Definition filenames (c : Catalog) : list string := List.map filename c.

(** No character of [s] is an underscore. *)
Definition underscoreFree (s : string) : Prop :=
  Str.forallb (fun c => negb (Ascii.eqb c "_")) s = true.

(** The entries of a catalog that [filter((img) => img.filename !== name)]
    keeps. *)
Definition keepOthers (name : string) (c : Catalog) : Catalog :=
  List.filter (fun e => negb (String.eqb (filename e) name)) c.

(* ================================================================= *)
(** ** Vocabulary of the further properties *)

(** No character of [s] is [c]. *)
Definition lacksChar (c : ascii) (s : string) : bool :=
  Str.forallb (fun x => negb (Ascii.eqb x c)) s.

(** The address [getGitHubUrl] builds under the configuration [cfg]. *)
Definition urlOf (cfg : Config) (name : string) : string :=
  "https://github.com/" ++ cfg_repo cfg ++ "/blob/" ++ cfg_branch cfg
  ++ "/images/" ++ name ++ "?raw=true".

Definition uploaded (imageUrl : string) : UploadResult :=
  {| upload_success := true; upload_url := Some imageUrl; upload_error := None |}.

Definition uploadFailed (error : Thrown) : UploadResult :=
  {| upload_success := false; upload_url := None;
     upload_error := Some (getErrorMessage error) |}.

(** [v] is an object whose [images] is an array. *)
Definition isCatalogShaped (v : JsValue) : bool :=
  match v with
  | JObj fields =>
      match Js.assoc "images" fields with
      | Some (JArr _) => true
      | _ => false
      end
  | _ => false
  end.

(** The elements of [v.images] for a catalog-shaped [v]. *)
Definition imagesOf (v : JsValue) : list JsValue :=
  match v with
  | JObj fields =>
      match Js.assoc "images" fields with
      | Some (JArr items) => items
      | _ => []
      end
  | _ => []
  end.

Definition isNull (v : JsValue) : bool :=
  match v with
  | JNull => true
  | _ => false
  end.

(** [img.filename !== name] for an element [img] that is not [null]. *)
Definition hasOtherFilename (name : string) (img : JsValue) : bool :=
  match img with
  | JObj fields => Js.strictNotEqual (Js.assoc "filename" fields) name
  | _ => true
  end.

(** The fields of an object other than [images], in order. *)
Definition otherFields (v : JsValue) : list (string * JsValue) :=
  match v with
  | JObj fields =>
      List.filter (fun kv => negb (String.eqb (fst kv) "images")) fields
  | _ => []
  end.

(** Sequencing of two steps that may throw. *)
Definition andThen {A B : Type} (o : Outcome A) (k : A -> Outcome B) : Outcome B :=
  match o with
  | Ok a => k a
  | Throw e => Throw e
  end.

(** The error of reading [img.filename] on a [null] element. *)
Definition nullFilenameError : Thrown :=
  JsError "Cannot read properties of null (reading 'filename')".

(** The request that writes the blob of an upload. *)
Definition blobWrite (cfg : Config) (name : string) (content : option string)
  : Request :=
  PUT (cfg_repo cfg) (imagePathOf name)
    {| put_message := "Upload image: " ++ name;
       put_content := content;
       put_branch := cfg_branch cfg;
       put_sha := None |}.

(** The request that removes the blob of an image. *)
Definition blobDelete (cfg : Config) (name sha : string) : Request :=
  DELETE (cfg_repo cfg) (imagePathOf name)
    {| del_message := "Delete image: " ++ name;
       del_sha := sha;
       del_branch := cfg_branch cfg |}.

(** The world after the two clock readings that open an upload. *)
Definition afterTwoReadings (w : World) : World :=
  {| trace := trace w; clockReads := S (S (clockReads w)) |}.

(** The filename an upload started in world [w] generates for [file]. *)
Definition nameIn (env : Env) (w : World) (file : File) : string :=
  makeFilename (clock env (S (clockReads w))) (file_name file).

(** The path a request addresses. *)
Definition pathOf (r : Request) : string :=
  match r with
  | GET _ path _ _ => path
  | PUT _ path _ => path
  | DELETE _ path _ => path
  end.

Definition isPut (r : Request) : bool :=
  match r with
  | PUT _ _ _ => true
  | _ => false
  end.

(** What a request of a delete of [image] may address: a [GET] reads the
    blob or the catalog, a [PUT] writes the catalog, a [DELETE] removes the
    blob. *)
Definition withinDeleteOf (image : ImageMetadata) (r : Request) : Prop :=
  match r with
  | GET _ path _ _ => path = imagePathOf (filename image) \/ path = metadataPath
  | PUT _ path _ => path = metadataPath
  | DELETE _ path _ => path = imagePathOf (filename image)
  end.

(* ================================================================= *)
(** ** Fixtures: a small runtime and scripted stores *)

Module Fixtures.

Definition quote : string := String (ascii_of_nat 34) EmptyString.

(** A compact rendering of a JSON value. *)
Fixpoint render (v : JsValue) : string :=
  match v with
  | JNull => "null"
  | JBool true => "true"
  | JBool false => "false"
  | JNum literal => literal
  | JStr s => quote ++ s ++ quote
  | JArr items =>
      "[" ++ (fix renderItems (l : list JsValue) : string :=
                match l with
                | [] => ""
                | x :: rest => render x ++ "," ++ renderItems rest
                end) items ++ "]"
  | JObj fields =>
      "{" ++ (fix renderFields (l : list (string * JsValue)) : string :=
                match l with
                | [] => ""
                | (k, x) :: rest =>
                    quote ++ k ++ quote ++ ":" ++ render x ++ "," ++ renderFields rest
                end) fields ++ "}"
  end.

Fixpoint parseAmong (documents : list JsValue) (text : string) : Outcome JsValue :=
  match documents with
  | [] => Throw (JsError "Unexpected token in JSON")
  | d :: rest => if String.eqb (render d) text then Ok d else parseAmong rest text
  end.

(** A runtime whose text encoding is the identity on strings without ["!"],
    and whose parser recognises the renderings of [documents] only. *)
Definition runtimeFor (documents : list JsValue) : Runtime :=
  {| atob := fun s => if String.eqb s "!" then Throw (JsError "Invalid character")
                      else Ok s;
     btoa := fun s => if String.eqb s "!" then Throw (JsError "Invalid character")
                      else Ok s;
     JSON_parse := parseAmong documents;
     JSON_stringify := render;
     toISOString := fun ms => "T" ++ Str.ofZ ms |}.

Definition fileOf (content sha : string) : Response :=
  {| data := {| gh_content := content; gh_sha := sha; gh_name := "";
                gh_path := ""; gh_download_url := "" |};
     data_content_sha := Some sha |}.

Definition notFound : Outcome Response :=
  Throw (AxiosError (Some 404%Z) (Some "Not Found") "Request failed with status code 404").


Definition conflict_error : Thrown :=
  AxiosError (Some 409%Z) (Some "metadata.json does not match")
    "Request failed with status code 409".

Definition conflict : Outcome Response := Throw conflict_error.

(** A store that answers the n-th request of a run with the n-th element
    of [script], and with a network error once the script is used up. *)
Definition scripted (script : list (Outcome Response)) (clockAt : nat -> Z) : Env :=
  {| VITE_GITHUB_TOKEN := Some "token";
     VITE_GITHUB_REPO := Some "owner/repo";
     VITE_GITHUB_BRANCH := None;
     clock := clockAt;
     respond := fun history _ =>
                  nth (List.length history) script
                    (Throw (AxiosError None None "Network Error")) |}.

Definition config : Config :=
  {| cfg_token := "token"; cfg_repo := "owner/repo"; cfg_branch := "main" |}.

Definition millis (n : nat) : Z := 1700000000000 + Z.of_nat n.

Definition photo : File :=
  {| file_name := "my photo.png"; file_type := "image/png"; file_size := 2048;
     file_dataURL := Some "data:image/png;base64,AAAA" |}.

Definition entry (name : string) : ImageMetadata :=
  {| filename := name; description := "d"; url := "u"; timestamp := "t";
     sha := Some "s" |}.

End Fixtures.

(* ================================================================= *)
(** * Properties *)

(** ** Sample runs *)

Example sanitize_sample :
  makeFilename 1700000000123 "my photo (1).png" = "1700000000123_my_photo__1_.png".
Proof. reflexivity. Qed.

Example afterComma_sample :
  afterComma "data:image/png;base64,AAAA" = Some "AAAA" /\ afterComma "AAAA" = None.
Proof. split; reflexivity. Qed.

Example validate_samples :
  validateImageFile Fixtures.photo = {| valid := true; validation_error := None |}
  /\ validateImageFile
       {| file_name := "a.bmp"; file_type := "image/bmp"; file_size := 99999999;
          file_dataURL := None |}
     = {| valid := false; validation_error := Some invalidTypeMessage |}
  /\ validateImageFile
       {| file_name := "a.png"; file_type := "image/png"; file_size := 10485761;
          file_dataURL := None |}
     = {| valid := false; validation_error := Some tooLargeMessage |}
  /\ validateImageFile
       {| file_name := "a.png"; file_type := "image/png"; file_size := 10485760;
          file_dataURL := None |}
     = {| valid := true; validation_error := None |}.
Proof. repeat split. Qed.

Example getErrorMessage_samples :
  getErrorMessage (AxiosError (Some 401%Z) (Some "Bad credentials") "m")
  = "Authentication failed. Please check your GitHub token."
  /\ getErrorMessage Fixtures.conflict_error = "metadata.json does not match"
  /\ getErrorMessage (AxiosError None None "Network Error") = "Network Error"
  /\ getErrorMessage (AxiosError (Some 500%Z) (Some "") "m") = "m"
  /\ getErrorMessage NonError = "An unexpected error occurred.".
Proof. repeat split. Qed.

(** First upload: no catalog yet; the catalog is created with one entry and
    without a revision token. *)
Example first_upload :
  uploadImage (runtime := Fixtures.runtimeFor [])
    (Fixtures.scripted
       [Ok (Fixtures.fileOf "" "b1"); Fixtures.notFound; Ok (Fixtures.fileOf "" "c1")]
       Fixtures.millis)
    Fixtures.photo "hello" initialWorld
  = (Ok {| upload_success := true;
           upload_url :=
             Some "https://github.com/owner/repo/blob/main/images/1700000000001_my_photo.png?raw=true";
           upload_error := None |},
     {| trace :=
          [PUT "owner/repo" "images/1700000000001_my_photo.png"
             {| put_message := "Upload image: 1700000000001_my_photo.png";
                put_content := Some "AAAA";
                put_branch := "main";
                put_sha := None |};
           GET "owner/repo" "metadata.json" "main" 1700000000002;
           PUT "owner/repo" "metadata.json"
             {| put_message := "Add image: 1700000000001_my_photo.png";
                put_content :=
                  Some (Fixtures.render
                          (catalogToJs
                             [newImageOf "1700000000001_my_photo.png" "hello"
                                "https://github.com/owner/repo/blob/main/images/1700000000001_my_photo.png?raw=true"
                                "T1700000000000" (Some "b1")]));
                put_branch := "main";
                put_sha := None |}];
        clockReads := 3 |}).
Proof. vm_compute. reflexivity. Qed.

(** The store refuses the catalog write of a delete with a conflict: the
    blob is gone, the result is a failure, nothing is sent after the refused
    write. *)
Example delete_with_stale_token :
  deleteImage (runtime := Fixtures.runtimeFor [catalogToJs [Fixtures.entry "1_a.png"]])
    (Fixtures.scripted
       [Ok (Fixtures.fileOf "AAAA" "b1"); Ok (Fixtures.fileOf "" "");
        Ok (Fixtures.fileOf (Fixtures.render (catalogToJs [Fixtures.entry "1_a.png"]))
              "c1");
        Fixtures.conflict]
       Fixtures.millis)
    (Fixtures.entry "1_a.png") initialWorld
  = (Ok {| delete_success := false;
           delete_error := Some "metadata.json does not match" |},
     {| trace :=
          [GET "owner/repo" "images/1_a.png" "main" 1700000000000;
           DELETE "owner/repo" "images/1_a.png"
             {| del_message := "Delete image: 1_a.png";
                del_sha := "b1";
                del_branch := "main" |};
           GET "owner/repo" "metadata.json" "main" 1700000000001;
           PUT "owner/repo" "metadata.json"
             {| put_message := "Remove image: 1_a.png";
                put_content := Some (Fixtures.render (catalogToJs []));
                put_branch := "main";
                put_sha := Some "c1" |}];
        clockReads := 2 |}).
Proof. vm_compute. reflexivity. Qed.

(** A failing blob write, a failing reader and a missing configuration each
    end [uploadImage] with a failure result. *)
Example upload_failures :
  fst (uploadImage (runtime := Fixtures.runtimeFor [])
         (Fixtures.scripted [Throw (AxiosError (Some 422%Z) None "m")] Fixtures.millis)
         Fixtures.photo "d" initialWorld)
  = Ok {| upload_success := false; upload_url := None;
          upload_error := Some "File already exists or invalid request." |}
  /\ uploadImage (runtime := Fixtures.runtimeFor [])
       (Fixtures.scripted [] Fixtures.millis)
       {| file_name := "a.png"; file_type := "image/png"; file_size := 4;
          file_dataURL := None |} "d" initialWorld
     = (Ok {| upload_success := false; upload_url := None;
              upload_error := Some "An unexpected error occurred." |},
        {| trace := []; clockReads := 2 |})
  /\ uploadImage (runtime := Fixtures.runtimeFor [])
       {| VITE_GITHUB_TOKEN := Some ""; VITE_GITHUB_REPO := Some "owner/repo";
          VITE_GITHUB_BRANCH := None; clock := Fixtures.millis;
          respond := fun _ _ => Fixtures.notFound |}
       Fixtures.photo "d" initialWorld
     = (Ok {| upload_success := false; upload_url := None;
              upload_error := Some missingConfigMessage |}, initialWorld).
Proof. repeat split. Qed.

(** A parsed catalog that is not an object with an [images] array makes the
    mutation raise a [TypeError], which the orchestrator reports. *)
Example prepend_to_non_catalog :
  prependEntry (JNum "42") (imageToJs (Fixtures.entry "1_a.png"))
  = Throw (JsError "Cannot read properties of undefined (reading 'unshift')")
  /\ prependEntry JNull (imageToJs (Fixtures.entry "1_a.png"))
     = Throw (JsError "Cannot read properties of null (reading 'images')")
  /\ removeByFilename (JObj [("images", JArr [JNull])]) "1_a.png"
     = Throw (JsError "Cannot read properties of null (reading 'filename')")
  /\ removeByFilename (JObj [("images", JArr [JNum "1"; JStr "1_a.png"])]) "1_a.png"
     = Ok (JObj [("images", JArr [JNum "1"; JStr "1_a.png"])]).
Proof. repeat split. Qed.

(** ** Running the primitives *)

Ltac run := unfold bind, ret, throw, lift, tryCatch in *; simpl in *.

Lemma getConfig_throws (env : Env) (e : Thrown) :
  getConfig env = Throw e -> e = JsError missingConfigMessage.
Proof.
  unfold getConfig.
  destruct (VITE_GITHUB_TOKEN env) as [token|];
    destruct (VITE_GITHUB_REPO env) as [repo|]; try congruence.
  destruct (negb (Str.truthy token) || negb (Str.truthy repo)); congruence.
Qed.

Lemma createApiClient_ok (env : Env) (cfg : Config) :
  getConfig env = Ok cfg -> createApiClient env = Ok tt.
Proof. unfold createApiClient. now intros ->. Qed.

(** With a valid configuration [fetchFile] sends exactly one [GET]; a 404
    becomes [null], every other failure is raised again. *)
Lemma fetchFile_configured (env : Env) (cfg : Config) (path : string) (w : World) :
  getConfig env = Ok cfg ->
  fetchFile env path w =
    (match respond env (trace w) (fetchRequest env cfg path w) with
     | Ok r => Ok (Some (data r))
     | Throw e => if isNotFound e then Ok None else Throw e
     end, afterFetch env cfg path w).
Proof.
  intros Hcfg. unfold fetchFile, dateNow, send, fetchRequest, afterFetch.
  run. rewrite (createApiClient_ok env cfg Hcfg), Hcfg. simpl.
  destruct (respond env _ _) as [r|e]; [reflexivity|].
  destruct (isNotFound e); reflexivity.
Qed.

(** Without one it raises the configuration error and sends nothing. *)
Lemma fetchFile_unconfigured (env : Env) (e : Thrown) (path : string) (w : World) :
  getConfig env = Throw e -> fetchFile env path w = (Throw e, w).
Proof.
  intros Hcfg. pose proof (getConfig_throws env e Hcfg) as ->.
  unfold fetchFile. run. rewrite Hcfg. reflexivity.
Qed.

Lemma fetchFile_returns_configured (env : Env) (path : string) (w w' : World)
    (file : option GitHubFileResponse) :
  fetchFile env path w = (Ok file, w') -> exists cfg, getConfig env = Ok cfg.
Proof.
  destruct (getConfig env) as [cfg|e] eqn:Hcfg; [eauto|].
  rewrite (fetchFile_unconfigured env e path w Hcfg). discriminate.
Qed.

Lemma createOrUpdateFile_configured {runtime : Runtime} (env : Env) (cfg : Config)
    (path content message : string) (sha : option string) (w : World) :
  getConfig env = Ok cfg ->
  createOrUpdateFile env path content message sha w =
    match btoa content with
    | Throw e => (Throw e, w)
    | Ok encoded =>
        let put := writeRequest cfg path encoded message sha in
        (match respond env (trace w) put with
         | Ok r => Ok (data r)
         | Throw e => Throw e
         end, afterSend put w)
    end.
Proof.
  intros Hcfg. unfold createOrUpdateFile, send, writeRequest, afterSend.
  run. rewrite (createApiClient_ok env cfg Hcfg), Hcfg. simpl.
  destruct (btoa content) as [encoded|e]; [|reflexivity].
  destruct (respond env _ _); reflexivity.
Qed.

(** ** Catalog mutations on well-formed catalogs *)

Lemma get_filename_of_entry (e : ImageMetadata) :
  Js.get (imageToJs e) "filename" = Ok (Some (JStr (filename e))).
Proof. reflexivity. Qed.

Lemma filterByFilename_entries (c : Catalog) (name : string) :
  filterByFilename (List.map imageToJs c) name
  = Ok (List.map imageToJs (keepOthers name c)).
Proof.
  induction c as [|e c IH]; [reflexivity|].
  cbn [List.map filterByFilename keepOthers List.filter].
  rewrite get_filename_of_entry, IH.
  cbn [Js.strictNotEqual]. fold (keepOthers name c).
  destruct (negb (filename e =? name)); reflexivity.
Qed.

Lemma prependEntry_catalog (c : Catalog) (e : ImageMetadata) :
  prependEntry (catalogToJs c) (imageToJs e) = Ok (catalogToJs (e :: c)).
Proof. reflexivity. Qed.

Lemma removeByFilename_catalog (c : Catalog) (name : string) :
  removeByFilename (catalogToJs c) name = Ok (catalogToJs (keepOthers name c)).
Proof.
  unfold removeByFilename. cbn [catalogToJs imagesArray Js.get Js.assoc String.eqb].
  simpl. rewrite filterByFilename_entries. reflexivity.
Qed.

Lemma keepOthers_absent (c : Catalog) (name : string) :
  ~ In name (filenames c) -> keepOthers name c = c.
Proof.
  intros Habsent. apply forallb_filter_id, forallb_forall.
  intros e He. apply negb_true_iff, String.eqb_neq.
  intros Heq. apply Habsent. rewrite <- Heq. now apply in_map.
Qed.

Lemma filenames_keepOthers (c : Catalog) (name : string) :
  filenames (keepOthers name c)
  = List.filter (fun f => negb (String.eqb f name)) (filenames c).
Proof.
  induction c as [|e c IH]; [reflexivity|].
  unfold keepOthers, filenames in *. cbn [List.filter List.map].
  destruct (negb (filename e =? name)); cbn [List.map]; now rewrite IH.
Qed.

Lemma keepOthers_unique (c : Catalog) (name : string) :
  NoDup (filenames c) -> NoDup (filenames (keepOthers name c)).
Proof. intros Hc. rewrite filenames_keepOthers. now apply NoDup_filter. Qed.

Lemma keepOthers_removes (c : Catalog) (name : string) :
  ~ In name (filenames (keepOthers name c)).
Proof.
  rewrite filenames_keepOthers, filter_In. intros [_ Hneq].
  now rewrite String.eqb_refl in Hneq.
Qed.

(** C1. Round trip of the two catalog mutations: for a catalog [C] and an
    entry [E] whose filename occurs in no entry of [C], prepending [E] (the
    [unshift] of upload) and then removing [E.filename] (the [filter] of
    delete) gives [C] back. *)
Theorem add_remove_round_trip (C : Catalog) (E : ImageMetadata) :
  ~ In (filename E) (filenames C) ->
  exists added,
    prependEntry (catalogToJs C) (imageToJs E) = Ok added /\
    removeByFilename added (filename E) = Ok (catalogToJs C).
Proof.
  intros Hfresh. exists (catalogToJs (E :: C)). split.
  - apply prependEntry_catalog.
  - rewrite removeByFilename_catalog. unfold keepOthers.
    cbn [List.filter]. rewrite String.eqb_refl. cbn [negb].
    fold (keepOthers (filename E) C). now rewrite keepOthers_absent.
Qed.

Lemma add_remove_round_trip_witness :
  exists added,
    prependEntry (catalogToJs [Fixtures.entry "1_a.png"])
      (imageToJs (Fixtures.entry "2_b.png")) = Ok added /\
    removeByFilename added "2_b.png" = Ok (catalogToJs [Fixtures.entry "1_a.png"]).
Proof.
  apply (add_remove_round_trip [Fixtures.entry "1_a.png"] (Fixtures.entry "2_b.png")).
  simpl. intros [H|[]]. discriminate H.
Defined.

(** ** Filename generation *)

Lemma digits_underscoreFree (d : Decimal.uint) :
  underscoreFree (NilEmpty.string_of_uint d).
Proof.
  unfold underscoreFree. induction d; simpl; auto.
Qed.

Lemma ofZ_underscoreFree (n : Z) : underscoreFree (Str.ofZ n).
Proof.
  assert (Huint : forall d, underscoreFree (NilZero.string_of_uint d)).
  { intros d. destruct d; [reflexivity | ..];
      match goal with
      | |- underscoreFree (NilZero.string_of_uint ?u) =>
          exact (digits_underscoreFree u)
      end. }
  unfold Str.ofZ, NilZero.string_of_int.
  destruct (Z.to_int n) as [d|d]; [apply Huint|].
  unfold underscoreFree. cbn [Str.forallb]. apply Huint.
Qed.

Lemma afterFirst_separator (prefix rest : string) :
  underscoreFree prefix ->
  Str.afterFirst "_" (prefix ++ "_" ++ rest) = rest.
Proof.
  unfold underscoreFree. induction prefix as [|c prefix IH]; simpl; [reflexivity|].
  intros H. apply andb_true_iff in H as [Hc Hrest].
  apply negb_true_iff in Hc. rewrite Hc. auto.
Qed.

Lemma sanitizeName_length (name : string) :
  String.length (sanitizeName name) = String.length name.
Proof. induction name; simpl; auto. Qed.

Lemma sanitizeName_get (name : string) (i : nat) (c : ascii) :
  String.get i name = Some c ->
  String.get i (sanitizeName name) = Some (if inNameClass c then c else "_"%char).
Proof.
  revert i. induction name as [|a name IH]; intros [|i]; simpl; try discriminate.
  - now intros [= ->].
  - apply IH.
Qed.

Lemma sanitizeName_matches (name : string) :
  matchesNameClassOrUnderscore (sanitizeName name) = true.
Proof.
  induction name as [|a name IH]; [reflexivity|].
  unfold matchesNameClassOrUnderscore, sanitizeName in *. simpl. rewrite IH.
  destruct (inNameClass a) eqn:Ha; [now rewrite Ha | now rewrite orb_true_r].
Qed.

Lemma sanitizeName_in_class (name : string) :
  matchesNameClass (sanitizeName name) = matchesNameClass name.
Proof.
  induction name as [|a name IH]; [reflexivity|].
  unfold matchesNameClass, sanitizeName in *. simpl. rewrite IH.
  destruct (inNameClass a) eqn:Ha; [now rewrite Ha | reflexivity].
Qed.

(** C8, as the code has it.  The generated filename is the decimal
    timestamp, an underscore and the sanitised name; sanitising replaces
    each character outside [[A-Za-z0-9.-]] with an underscore and keeps the
    others, so the part after the prefix matches [^[A-Za-z0-9._-]*$], and it
    matches [^[A-Za-z0-9.-]*$] exactly when the original name already did. *)
Theorem generated_filename_shape (now : Z) (originalName : string) :
  stripTimestamp (makeFilename now originalName) = sanitizeName originalName
  /\ String.length (sanitizeName originalName) = String.length originalName
  /\ (forall i c,
        String.get i originalName = Some c ->
        String.get i (sanitizeName originalName)
        = Some (if inNameClass c then c else "_"%char))
  /\ matchesNameClassOrUnderscore (stripTimestamp (makeFilename now originalName)) = true
  /\ matchesNameClass (stripTimestamp (makeFilename now originalName))
     = matchesNameClass originalName.
Proof.
  assert (Hstrip : stripTimestamp (makeFilename now originalName)
                   = sanitizeName originalName).
  { unfold stripTimestamp, makeFilename.
    apply afterFirst_separator, ofZ_underscoreFree. }
  rewrite Hstrip. repeat split.
  - apply sanitizeName_length.
  - apply sanitizeName_get.
  - apply sanitizeName_matches.
  - apply sanitizeName_in_class.
Qed.

(** C8, as stated, fails: a space in the original name becomes an
    underscore, which [^[A-Za-z0-9.-]*$] does not admit. *)
Lemma sanitized_name_can_leave_class :
  makeFilename 1700000000000 "my photo.png" = "1700000000000_my_photo.png"
  /\ stripTimestamp (makeFilename 1700000000000 "my photo.png") = "my_photo.png"
  /\ matchesNameClass (stripTimestamp (makeFilename 1700000000000 "my photo.png"))
     = false.
Proof. repeat split. Qed.

(** ** File validation *)

Lemma includes_In (l : list string) (t : string) :
  includes l t = true <-> In t l.
Proof.
  unfold includes. rewrite existsb_exists. split.
  - intros [x [Hin Heq]]. apply String.eqb_eq in Heq. now subst.
  - intros Hin. exists t. split; [assumption | apply String.eqb_refl].
Qed.

(** C9. [validateImageFile] accepts a file exactly when its declared type is
    one of [image/jpeg], [image/png], [image/gif] and its size is at most
    [10 * 1024 * 1024] bytes; a rejection carries a reason, and the type is
    checked before the size. *)
Theorem validateImageFile_spec (file : File) :
  allowedTypes = ["image/jpeg"; "image/png"; "image/gif"]
  /\ maxSize = 10485760%N
  /\ (validateImageFile file = {| valid := true; validation_error := None |}
      <-> In (file_type file) allowedTypes /\ (file_size file <= maxSize)%N)
  /\ (valid (validateImageFile file) = true
      <-> In (file_type file) allowedTypes /\ (file_size file <= maxSize)%N)
  /\ (~ In (file_type file) allowedTypes ->
      validateImageFile file
      = {| valid := false; validation_error := Some invalidTypeMessage |})
  /\ (In (file_type file) allowedTypes -> (maxSize < file_size file)%N ->
      validateImageFile file
      = {| valid := false; validation_error := Some tooLargeMessage |}).
Proof.
  unfold validateImageFile.
  pose proof (includes_In allowedTypes (file_type file)) as Hin.
  destruct (includes allowedTypes (file_type file)) eqn:Htype; cbn [negb];
    destruct (N.ltb_spec maxSize (file_size file)) as [Hsize|Hsize];
    repeat split; try reflexivity; try discriminate; try tauto; try lia;
    intros; try (exfalso; intuition (discriminate || lia)).
Qed.

(** ** The two catalog synchronisations, step by step *)

Section Steps.

Context {runtime : Runtime}.
Variables (env : Env) (cfg : Config).
Hypothesis configured : getConfig env = Ok cfg.

Lemma decode_inline (file : GitHubFileResponse) (w : World) :
  tryCatch
    (bind (lift (atob (gh_content file))) (fun content => lift (JSON_parse content)))
    (fun _ => ret emptyMetadata) w
  = (Ok (decoded file), w).
Proof.
  unfold decoded. run.
  destruct (atob (gh_content file)) as [content|e]; [|reflexivity].
  destruct (JSON_parse content); reflexivity.
Qed.

(** The synchronisation of upload: one fetch, then [writeBack] of the
    catalog with the new entry in front, unless the fetch failed with
    something other than a 404. *)
Lemma uploadCatalogStep_run
    (name description imageUrl timestamp : string) (blobSha : option string)
    (w : World) :
  let newImage := imageToJs (newImageOf name description imageUrl timestamp blobSha) in
  let w1 := afterFetch env cfg metadataPath w in
  uploadCatalogStep env name description imageUrl timestamp blobSha w =
    match respond env (trace w) (fetchRequest env cfg metadataPath w) with
    | Ok r =>
        writeBack env cfg (prependEntry (decoded (data r)) newImage)
          ("Add image: " ++ name) (Some (gh_sha (data r))) w1
    | Throw e =>
        if isNotFound e
        then writeBack env cfg (prependEntry emptyMetadata newImage)
               ("Add image: " ++ name) None w1
        else (Throw e, w1)
    end.
Proof.
  intros newImage w1. subst newImage. unfold newImageOf.
  unfold uploadCatalogStep, bind at 1.
  rewrite (fetchFile_configured env cfg metadataPath w configured).
  fold w1. unfold writeBack.
  destruct (respond env (trace w) _) as [r|e].
  - unfold bind at 1. rewrite decode_inline.
    unfold bind at 1, lift at 1.
    destruct (prependEntry (decoded (data r)) _) as [m|e]; [|reflexivity].
    unfold bind at 1.
    rewrite (createOrUpdateFile_configured env cfg _ _ _ _ w1 configured).
    destruct (btoa (JSON_stringify m)) as [encoded|e]; [|reflexivity].
    cbv zeta. cbn [option_map].
    destruct (respond env (trace w1) _); reflexivity.
  - destruct (isNotFound e); [|reflexivity].
    unfold bind at 1, ret at 1. unfold bind at 1, lift at 1.
    destruct (prependEntry emptyMetadata _) as [m|e']; [|reflexivity].
    unfold bind at 1.
    rewrite (createOrUpdateFile_configured env cfg _ _ _ _ w1 configured).
    destruct (btoa (JSON_stringify m)) as [encoded|e']; [|reflexivity].
    cbv zeta. cbn [option_map].
    destruct (respond env (trace w1) _); reflexivity.
Qed.

(** The synchronisation of delete: one fetch; an absent catalog ends the
    step with success and no write; otherwise [writeBack] of the filtered
    catalog. *)
Lemma deleteCatalogStep_run (image : ImageMetadata) (w : World) :
  let w1 := afterFetch env cfg metadataPath w in
  deleteCatalogStep env image w =
    match respond env (trace w) (fetchRequest env cfg metadataPath w) with
    | Ok r =>
        match writeBack env cfg
                (removeByFilename (decoded (data r)) (filename image))
                ("Remove image: " ++ filename image) (Some (gh_sha (data r))) w1
        with
        | (Ok _, w2) => (Ok deleted, w2)
        | (Throw e, w2) => (Throw e, w2)
        end
    | Throw e => if isNotFound e then (Ok deleted, w1) else (Throw e, w1)
    end.
Proof.
  intros w1. unfold deleteCatalogStep, bind at 1.
  rewrite (fetchFile_configured env cfg metadataPath w configured).
  fold w1. unfold writeBack.
  destruct (respond env (trace w) _) as [r|e].
  - unfold bind at 1. rewrite decode_inline.
    unfold bind at 1, lift at 1.
    destruct (removeByFilename (decoded (data r)) (filename image)) as [m|e];
      [|reflexivity].
    unfold bind at 1.
    rewrite (createOrUpdateFile_configured env cfg _ _ _ _ w1 configured).
    destruct (btoa (JSON_stringify m)) as [encoded|e]; [|reflexivity].
    cbv zeta.
    destruct (respond env (trace w1) _); reflexivity.
  - destruct (isNotFound e); reflexivity.
Qed.

Lemma writeBack_single_attempt {A : Type} (skip : bool) (w : World)
    (metadata : Outcome JsValue) (message : string) (sha : option string)
    (result : A) :
  let answer := respond env (trace w) (fetchRequest env cfg metadataPath w) in
  (match sha with
   | Some s => if Str.truthy s then Some s else None
   | None => None
   end) = tokenOf answer ->
  skip && catalogAbsent answer = false ->
  SingleAttempt env cfg w skip
    (match writeBack env cfg metadata message sha (afterFetch env cfg metadataPath w)
     with
     | (Ok _, w2) => (Ok result, w2)
     | (Throw e, w2) => (Throw e, w2)
     end).
Proof.
  intros answer Htoken Hskip. unfold SingleAttempt. fold answer.
  rewrite Hskip. unfold writeBack.
  destruct metadata as [m|e];
    [destruct (btoa (JSON_stringify m)) as [encoded|e]|].
  - cbv zeta.
    exists [writeRequest cfg metadataPath encoded message sha].
    assert (Hfetch : trace (afterFetch env cfg metadataPath w)
                     = (trace w ++ [fetchRequest env cfg metadataPath w])%list)
      by reflexivity.
    rewrite Hfetch.
    destruct (respond env _ (writeRequest cfg metadataPath encoded message sha))
      as [r|e] eqn:Hput; cbn [fst snd afterSend trace];
      (split; [rewrite Hfetch, <- app_assoc; reflexivity|]);
      (split; [unfold count, fetchRequest; cbn; reflexivity|]);
      (split; [right; eexists; split; [reflexivity|exact Htoken]|]);
      (split; [intros a Ha; try discriminate Ha;
               unfold count; cbn; reflexivity|]);
      intros payload e' Hissued Hrefused; unfold writeRequest in *;
      injection Hissued as <-; congruence.
  - exists []. cbn [fst snd].
    split; [reflexivity|]. split; [reflexivity|]. split; [now left|].
    split; discriminate.
  - exists []. cbn [fst snd].
    split; [reflexivity|]. split; [reflexivity|]. split; [now left|].
    split; discriminate.
Qed.

Lemma stopped_single_attempt {A : Type} (skip : bool) (w : World) (o : Outcome A) :
  let answer := respond env (trace w) (fetchRequest env cfg metadataPath w) in
  (forall a, o = Ok a -> skip && catalogAbsent answer = true) ->
  SingleAttempt env cfg w skip (o, afterFetch env cfg metadataPath w).
Proof.
  intros answer Hok. unfold SingleAttempt. fold answer.
  exists []. cbn [fst snd].
  split; [reflexivity|]. split; [reflexivity|]. split; [now left|].
  split; [|discriminate].
  intros a Ha. now rewrite (Hok a Ha).
Qed.

End Steps.

Lemma uploadCatalogStep_single_attempt {runtime : Runtime} (env : Env)
    (cfg : Config) (w : World)
    (name description imageUrl timestamp : string) (blobSha : option string) :
  getConfig env = Ok cfg ->
  SingleAttempt env cfg w false
    (uploadCatalogStep env name description imageUrl timestamp blobSha w).
Proof.
  intros configured.
  pose proof (uploadCatalogStep_run env cfg configured name description
                imageUrl timestamp blobSha w) as Hrun.
  cbv zeta in Hrun. rewrite Hrun. clear Hrun.
  destruct (respond env (trace w) (fetchRequest env cfg metadataPath w))
    as [r|e] eqn:Hanswer.
  - pose proof (writeBack_single_attempt env cfg false w
                  (prependEntry (decoded (data r))
                     (imageToJs (newImageOf name description imageUrl
                                   timestamp blobSha)))
                  ("Add image: " ++ name) (Some (gh_sha (data r))) tt) as H.
    cbv zeta in H. rewrite Hanswer in H. specialize (H eq_refl eq_refl).
    destruct (writeBack env cfg _ _ _ _) as [[[]|e] w2]; exact H.
  - destruct (isNotFound e) eqn:He.
    + pose proof (writeBack_single_attempt env cfg false w
                    (prependEntry emptyMetadata
                       (imageToJs (newImageOf name description imageUrl
                                     timestamp blobSha)))
                    ("Add image: " ++ name) None tt) as H.
      cbv zeta in H. rewrite Hanswer in H. specialize (H eq_refl eq_refl).
      destruct (writeBack env cfg _ _ _ _) as [[[]|e'] w2]; exact H.
    + apply stopped_single_attempt. discriminate.
Qed.

Lemma deleteCatalogStep_single_attempt {runtime : Runtime} (env : Env)
    (cfg : Config) (w : World) (image : ImageMetadata) :
  getConfig env = Ok cfg ->
  SingleAttempt env cfg w true (deleteCatalogStep env image w).
Proof.
  intros configured.
  pose proof (deleteCatalogStep_run env cfg configured image w) as Hrun.
  cbv zeta in Hrun. rewrite Hrun. clear Hrun.
  destruct (respond env (trace w) (fetchRequest env cfg metadataPath w))
    as [r|e] eqn:Hanswer.
  - pose proof (writeBack_single_attempt env cfg true w
                  (removeByFilename (decoded (data r)) (filename image))
                  ("Remove image: " ++ filename image)
                  (Some (gh_sha (data r))) deleted) as H.
    cbv zeta in H. rewrite Hanswer in H. exact (H eq_refl eq_refl).
  - destruct (isNotFound e) eqn:He.
    + apply stopped_single_attempt. intros _ _.
      rewrite Hanswer. cbn. exact He.
    + apply stopped_single_attempt. discriminate.
Qed.

(** C2, as the code has it.  With a valid configuration, the catalog
    synchronisation of upload and that of delete each send exactly one fetch
    of the catalog and at most one write after it, and the write carries the
    sha returned by that fetch (none when the fetch found no catalog or
    returned an empty sha).  When upload's synchronisation succeeds the
    write was sent; when delete's succeeds the write was sent unless the
    catalog was absent, in which case it succeeds without a write.  When the
    store refuses the write, the step raises the store's error and sends
    nothing more. *)
Theorem catalog_sync_single_attempt {runtime : Runtime} (env : Env)
    (cfg : Config) (w : World) :
  getConfig env = Ok cfg ->
  (forall name description imageUrl timestamp blobSha,
      SingleAttempt env cfg w false
        (uploadCatalogStep env name description imageUrl timestamp blobSha w))
  /\ (forall image,
        SingleAttempt env cfg w true (deleteCatalogStep env image w)).
Proof.
  intros configured. split.
  - intros. now apply uploadCatalogStep_single_attempt.
  - intros. now apply deleteCatalogStep_single_attempt.
Qed.

Lemma catalog_sync_single_attempt_witness :
  (forall name description imageUrl timestamp blobSha,
      SingleAttempt (Fixtures.scripted [Fixtures.notFound] Fixtures.millis)
        Fixtures.config initialWorld false
        (uploadCatalogStep (runtime := Fixtures.runtimeFor [])
           (Fixtures.scripted [Fixtures.notFound] Fixtures.millis)
           name description imageUrl timestamp blobSha initialWorld))
  /\ (forall image,
        SingleAttempt (Fixtures.scripted [Fixtures.notFound] Fixtures.millis)
          Fixtures.config initialWorld true
          (deleteCatalogStep (runtime := Fixtures.runtimeFor [])
             (Fixtures.scripted [Fixtures.notFound] Fixtures.millis)
             image initialWorld)).
Proof.
  apply (catalog_sync_single_attempt (runtime := Fixtures.runtimeFor [])
           (Fixtures.scripted [Fixtures.notFound] Fixtures.millis)
           Fixtures.config initialWorld).
  reflexivity.
Defined.

(** C2, as stated, fails for delete: when the catalog resource does not
    exist, [deleteImage] removes the blob, fetches the catalog once, and
    reports success without having written the catalog. *)
Lemma delete_succeeds_without_catalog_write :
  fst (deleteImage (runtime := Fixtures.runtimeFor [])
         (Fixtures.scripted
            [Ok (Fixtures.fileOf "AAAA" "b1"); Ok (Fixtures.fileOf "" "");
             Fixtures.notFound] Fixtures.millis)
         (Fixtures.entry "1_a.png") initialWorld)
  = Ok deleted
  /\ List.map isCatalogFetch
       (trace (snd (deleteImage (runtime := Fixtures.runtimeFor [])
                      (Fixtures.scripted
                         [Ok (Fixtures.fileOf "AAAA" "b1"); Ok (Fixtures.fileOf "" "");
                          Fixtures.notFound] Fixtures.millis)
                      (Fixtures.entry "1_a.png") initialWorld)))
     = [false; false; true]
  /\ count isCatalogWrite
       (trace (snd (deleteImage (runtime := Fixtures.runtimeFor [])
                      (Fixtures.scripted
                         [Ok (Fixtures.fileOf "AAAA" "b1"); Ok (Fixtures.fileOf "" "");
                          Fixtures.notFound] Fixtures.millis)
                      (Fixtures.entry "1_a.png") initialWorld)))
     = 0.
Proof. vm_compute. repeat split. Qed.

(** ** The orchestrators *)

Lemma count_app (p : Request -> bool) (l l' : list Request) :
  count p (l ++ l') = count p l + count p l'.
Proof. unfold count. now rewrite filter_app, length_app. Qed.

Lemma deleteBlobStep_run (env : Env) (cfg : Config) (image : ImageMetadata)
    (w : World) :
  getConfig env = Ok cfg ->
  let path := imagePathOf (filename image) in
  let w1 := afterFetch env cfg path w in
  deleteBlobStep env cfg image w =
    match respond env (trace w) (fetchRequest env cfg path w) with
    | Ok r =>
        let del := DELETE (cfg_repo cfg) path
                     {| del_message := "Delete image: " ++ filename image;
                        del_sha := gh_sha (data r);
                        del_branch := cfg_branch cfg |} in
        (match respond env (trace w1) del with
         | Ok _ => Ok tt
         | Throw e => Throw e
         end, afterSend del w1)
    | Throw e => if isNotFound e then (Ok tt, w1) else (Throw e, w1)
    end.
Proof.
  intros configured path w1. unfold deleteBlobStep, bind at 1.
  rewrite (fetchFile_configured env cfg _ w configured). fold path. fold w1.
  destruct (respond env (trace w) _) as [r|e].
  - unfold bind, send, ret, afterSend. cbv zeta.
    destruct (respond env (trace w1) _); reflexivity.
  - destruct (isNotFound e); reflexivity.
Qed.

(** [deleteImage] is the blob step followed by the catalog step, with every
    raised error turned into a failure result. *)
Lemma deleteImage_run {runtime : Runtime} (env : Env) (cfg : Config)
    (image : ImageMetadata) (w : World) :
  getConfig env = Ok cfg ->
  deleteImage env image w =
    match deleteBlobStep env cfg image w with
    | (Ok _, w1) =>
        match deleteCatalogStep env image w1 with
        | (Ok r, w2) => (Ok r, w2)
        | (Throw e, w2) => (Ok (deleteFailed e), w2)
        end
    | (Throw e, w1) => (Ok (deleteFailed e), w1)
    end.
Proof.
  intros configured. unfold deleteImage, deleteBody, tryCatch, bind, lift, ret.
  rewrite configured, (createApiClient_ok env cfg configured).
  destruct (deleteBlobStep env cfg image w) as [[[]|e] w1]; [|reflexivity].
  destruct (deleteCatalogStep env image w1) as [[r|e] w2]; reflexivity.
Qed.

Lemma deleteCatalogStep_result {runtime : Runtime} (env : Env) (cfg : Config)
    (image : ImageMetadata) (w w' : World) (r : DeleteResult) :
  getConfig env = Ok cfg ->
  deleteCatalogStep env image w = (Ok r, w') ->
  r = deleted /\ count isDelete (trace w') = count isDelete (trace w).
Proof.
  intros configured Hstep.
  pose proof (deleteCatalogStep_single_attempt env cfg w image configured)
    as Hsingle.
  rewrite Hstep in Hsingle.
  destruct Hsingle as [issued [Htrace [_ [Hissued _]]]].
  cbn [fst snd] in Htrace. split.
  - rewrite (deleteCatalogStep_run env cfg configured image w) in Hstep.
    cbv zeta in Hstep.
    destruct (respond env (trace w) _) as [answer|e].
    + destruct (writeBack env cfg _ _ _ _) as [[[]|e] w2]; congruence.
    + destruct (isNotFound e); congruence.
  - rewrite Htrace, count_app.
    destruct Hissued as [-> | [payload [-> _]]]; unfold count; cbn; lia.
Qed.

(** C6. When the lookup of the blob returns [null] (the blob is absent),
    [deleteImage] skips the deletion of the blob: the blob step ends without
    a [DELETE], no [DELETE] is sent in the rest of the run either, and as
    soon as the catalog synchronisation completes the result is success. *)
Theorem delete_skips_absent_blob {runtime : Runtime} (env : Env)
    (image : ImageMetadata) (w w1 : World) :
  fetchFile env (imagePathOf (filename image)) w = (Ok None, w1) ->
  (exists cfg,
      getConfig env = Ok cfg /\ deleteBlobStep env cfg image w = (Ok tt, w1))
  /\ count isDelete (trace w1) = count isDelete (trace w)
  /\ (forall r w2,
        deleteCatalogStep env image w1 = (Ok r, w2) ->
        deleteImage env image w = (Ok deleted, w2)
        /\ count isDelete (trace w2) = count isDelete (trace w)).
Proof.
  intros Hlookup.
  destruct (fetchFile_returns_configured env _ w w1 None Hlookup) as [cfg configured].
  assert (Hblob : deleteBlobStep env cfg image w = (Ok tt, w1)).
  { unfold deleteBlobStep, bind. now rewrite Hlookup. }
  assert (Hcount : count isDelete (trace w1) = count isDelete (trace w)).
  { rewrite (fetchFile_configured env cfg _ w configured) in Hlookup.
    injection Hlookup as _ <-. unfold afterFetch. cbn [trace].
    rewrite count_app. unfold count at 2. cbn. lia. }
  split; [now exists cfg|]. split; [exact Hcount|].
  intros r w2 Hsync.
  destruct (deleteCatalogStep_result env cfg image w1 w2 r configured Hsync)
    as [-> Hsame].
  split; [|congruence].
  rewrite (deleteImage_run env cfg image w configured), Hblob, Hsync.
  reflexivity.
Qed.

Lemma delete_skips_absent_blob_witness :
  count isDelete
    (trace (snd (deleteImage (runtime := Fixtures.runtimeFor [])
                   (Fixtures.scripted [Fixtures.notFound; Fixtures.notFound]
                      Fixtures.millis)
                   (Fixtures.entry "1_a.png") initialWorld)))
  = 0
  /\ fst (deleteImage (runtime := Fixtures.runtimeFor [])
            (Fixtures.scripted [Fixtures.notFound; Fixtures.notFound]
               Fixtures.millis)
            (Fixtures.entry "1_a.png") initialWorld)
     = Ok deleted.
Proof.
  destruct (delete_skips_absent_blob (runtime := Fixtures.runtimeFor [])
              (Fixtures.scripted [Fixtures.notFound; Fixtures.notFound]
                 Fixtures.millis)
              (Fixtures.entry "1_a.png") initialWorld
              {| trace := [GET "owner/repo" "images/1_a.png" "main" 1700000000000];
                 clockReads := 1 |}
              eq_refl) as [_ [_ Hsync]].
  destruct (Hsync deleted
              {| trace := [GET "owner/repo" "images/1_a.png" "main" 1700000000000;
                           GET "owner/repo" "metadata.json" "main" 1700000000001];
                 clockReads := 2 |}
              eq_refl) as [Hrun Hcount].
  rewrite Hrun. split; [exact Hcount | reflexivity].
Defined.

Lemma uploadBody_result {runtime : Runtime} (env : Env) (file : File)
    (description : string) (w w' : World) (r : UploadResult) :
  uploadBody env file description w = (Ok r, w') ->
  upload_success r = true /\ upload_error r = None.
Proof.
  unfold uploadBody, bind, lift, ret, dateNow, send.
  destruct (getConfig env) as [cfg|]; [|discriminate].
  destruct (createApiClient env); [|discriminate].
  destruct (fileToBase64 file); [|discriminate].
  destruct (respond env _ _); [|discriminate].
  destruct (getGitHubUrl env _); [|discriminate].
  destruct (uploadCatalogStep env _ _ _ _ _ _) as [[[]|] w2]; [|discriminate].
  intros [= <- _]. now split.
Qed.

Lemma deleteBody_result {runtime : Runtime} (env : Env) (image : ImageMetadata)
    (w w' : World) (r : DeleteResult) :
  deleteBody env image w = (Ok r, w') -> r = deleted.
Proof.
  unfold deleteBody, bind, lift.
  destruct (getConfig env) as [cfg|] eqn:configured; [|discriminate].
  destruct (createApiClient env); [|discriminate].
  destruct (deleteBlobStep env cfg image w) as [[[]|] w1]; [|discriminate].
  intros Hsync.
  now destruct (deleteCatalogStep_result env cfg image w1 w' r configured Hsync).
Qed.

(** C7. [uploadImage] and [deleteImage] never raise: whatever the inputs
    and whatever the store, the clock and the runtime do, each returns a
    result.  When the body of the [try] completes the result is its success;
    when any step of the body raises [e] (the blob write, the catalog fetch,
    the catalog write, the blob delete, or anything else) the result is
    [{success: false, error: getErrorMessage(e)}]. *)
Theorem orchestrators_never_throw {runtime : Runtime} (env : Env) (w : World) :
  (forall file description,
      (exists r w', uploadImage env file description w = (Ok r, w'))
      /\ match uploadBody env file description w with
         | (Ok r, w') =>
             uploadImage env file description w = (Ok r, w')
             /\ upload_success r = true /\ upload_error r = None
         | (Throw e, w') =>
             uploadImage env file description w
             = (Ok {| upload_success := false; upload_url := None;
                      upload_error := Some (getErrorMessage e) |}, w')
         end)
  /\ (forall image,
        (exists r w', deleteImage env image w = (Ok r, w'))
        /\ match deleteBody env image w with
           | (Ok r, w') =>
               deleteImage env image w = (Ok r, w')
               /\ r = {| delete_success := true; delete_error := None |}
           | (Throw e, w') =>
               deleteImage env image w
               = (Ok {| delete_success := false;
                        delete_error := Some (getErrorMessage e) |}, w')
           end).
Proof.
  split.
  - intros file description. unfold uploadImage, tryCatch, ret.
    destruct (uploadBody env file description w) as [[r|e] w'] eqn:Hbody.
    + split; [eauto|]. split; [reflexivity|].
      exact (uploadBody_result env file description w w' r Hbody).
    + split; [eauto | reflexivity].
  - intros image. unfold deleteImage, tryCatch, ret.
    destruct (deleteBody env image w) as [[r|e] w'] eqn:Hbody.
    + split; [eauto|]. split; [reflexivity|].
      exact (deleteBody_result env image w w' r Hbody).
    + split; [eauto | reflexivity].
Qed.

(** C10. [fetchMetadata] never raises.  It returns [{images: []}] when
    [fetchFile] raises anything at all (the configuration error, an
    authorisation error, a transport error: every failure of the request
    other than a 404 is raised again by [fetchFile]), when [fetchFile]
    returns [null], and when the content does not decode; otherwise it
    returns the parsed content. *)
Theorem fetchMetadata_never_throws {runtime : Runtime} (env : Env) (w : World) :
  (exists v w', fetchMetadata env w = (Ok v, w'))
  /\ (forall e w',
        fetchFile env metadataPath w = (Throw e, w') ->
        fetchMetadata env w = (Ok emptyMetadata, w'))
  /\ (forall w',
        fetchFile env metadataPath w = (Ok None, w') ->
        fetchMetadata env w = (Ok emptyMetadata, w'))
  /\ (forall file w',
        fetchFile env metadataPath w = (Ok (Some file), w') ->
        fetchMetadata env w = (Ok (decoded file), w'))
  /\ (forall cfg e,
        getConfig env = Ok cfg ->
        respond env (trace w) (fetchRequest env cfg metadataPath w) = Throw e ->
        fetchMetadata env w = (Ok emptyMetadata, afterFetch env cfg metadataPath w)
        /\ (isNotFound e = false ->
            fetchFile env metadataPath w
            = (Throw e, afterFetch env cfg metadataPath w)))
  /\ (forall e,
        getConfig env = Throw e -> fetchMetadata env w = (Ok emptyMetadata, w)).
Proof.
  assert (Hnull : forall w',
             fetchFile env metadataPath w = (Ok None, w') ->
             fetchMetadata env w = (Ok emptyMetadata, w')).
  { intros w' H. unfold fetchMetadata, tryCatch, bind. now rewrite H. }
  assert (Hraise : forall e w',
             fetchFile env metadataPath w = (Throw e, w') ->
             fetchMetadata env w = (Ok emptyMetadata, w')).
  { intros e w' H. unfold fetchMetadata, tryCatch, bind. now rewrite H. }
  assert (Hfile : forall file w',
             fetchFile env metadataPath w = (Ok (Some file), w') ->
             fetchMetadata env w = (Ok (decoded file), w')).
  { intros file w' H. unfold fetchMetadata, tryCatch, bind, lift, ret, decoded.
    rewrite H. destruct (atob (gh_content file)) as [content|]; [|reflexivity].
    destruct (JSON_parse content); reflexivity. }
  split; [|split; [exact Hraise|split; [exact Hnull|split; [exact Hfile|split]]]].
  - destruct (fetchFile env metadataPath w) as [[[file|]|e] w'] eqn:H; eauto.
  - intros cfg e configured Hanswer.
    pose proof (fetchFile_configured env cfg metadataPath w configured) as H.
    rewrite Hanswer in H. split.
    + destruct (isNotFound e); [now apply Hnull | now apply (Hraise e)].
    + intros Hother. now rewrite Hother in H.
  - intros e Hcfg. apply (Hraise e).
    now apply fetchFile_unconfigured.
Qed.

(** ** Decoding the catalog *)

Lemma decoded_malformed {runtime : Runtime} (file : GitHubFileResponse)
    (content : string) (e : Thrown) :
  atob (gh_content file) = Ok content ->
  JSON_parse content = Throw e ->
  decoded file = emptyMetadata.
Proof. unfold decoded. now intros -> ->. Qed.

(** C3. When the content of the catalog resource is not valid JSON
    ([JSON.parse] throws on it), each of the three decoding sites yields
    [{images: []}] and raises nothing: [fetchMetadata] returns it;
    [uploadImage]'s synchronisation goes on to write the catalog that holds
    the new entry alone; [deleteImage]'s synchronisation goes on to write
    the empty catalog. *)
Theorem malformed_catalog_decodes_to_empty {runtime : Runtime} (env : Env)
    (cfg : Config) (w : World) (r : Response) (content : string) (e : Thrown) :
  getConfig env = Ok cfg ->
  respond env (trace w) (fetchRequest env cfg metadataPath w) = Ok r ->
  atob (gh_content (data r)) = Ok content ->
  JSON_parse content = Throw e ->
  fetchMetadata env w = (Ok emptyMetadata, afterFetch env cfg metadataPath w)
  /\ (forall name description imageUrl timestamp blobSha,
        uploadCatalogStep env name description imageUrl timestamp blobSha w
        = writeBack env cfg
            (Ok (catalogToJs [newImageOf name description imageUrl timestamp blobSha]))
            ("Add image: " ++ name) (Some (gh_sha (data r)))
            (afterFetch env cfg metadataPath w))
  /\ (forall image,
        deleteCatalogStep env image w
        = match writeBack env cfg (Ok emptyMetadata)
                  ("Remove image: " ++ filename image) (Some (gh_sha (data r)))
                  (afterFetch env cfg metadataPath w)
          with
          | (Ok _, w2) => (Ok deleted, w2)
          | (Throw e, w2) => (Throw e, w2)
          end).
Proof.
  intros configured Hanswer Hatob Hparse.
  pose proof (decoded_malformed (data r) content e Hatob Hparse) as Hdecoded.
  split; [|split].
  - unfold fetchMetadata, tryCatch, bind, lift, ret.
    rewrite (fetchFile_configured env cfg metadataPath w configured), Hanswer.
    now rewrite Hatob, Hparse.
  - intros name description imageUrl timestamp blobSha.
    pose proof (uploadCatalogStep_run env cfg configured name description
                  imageUrl timestamp blobSha w) as Hrun.
    cbv zeta in Hrun. now rewrite Hrun, Hanswer, Hdecoded.
  - intros image.
    pose proof (deleteCatalogStep_run env cfg configured image w) as Hrun.
    cbv zeta in Hrun. now rewrite Hrun, Hanswer, Hdecoded.
Qed.

Lemma malformed_catalog_decodes_to_empty_witness :
  fetchMetadata (runtime := Fixtures.runtimeFor [])
    (Fixtures.scripted [Ok (Fixtures.fileOf "{images:" "c1")] Fixtures.millis)
    initialWorld
  = (Ok emptyMetadata,
     {| trace := [GET "owner/repo" "metadata.json" "main" 1700000000000];
        clockReads := 1 |}).
Proof.
  exact (proj1 (malformed_catalog_decodes_to_empty
                  (runtime := Fixtures.runtimeFor [])
                  (Fixtures.scripted [Ok (Fixtures.fileOf "{images:" "c1")]
                     Fixtures.millis)
                  Fixtures.config initialWorld (Fixtures.fileOf "{images:" "c1")
                  "{images:" (JsError "Unexpected token in JSON")
                  eq_refl eq_refl eq_refl eq_refl)).
Defined.

(** ** Deleting a filename the catalog does not list *)

(** C4. Let the catalog resource hold the catalog [C] and let [image] have
    a filename that no entry of [C] has.  When the store serves the run
    (the blob step goes through, the catalog is fetched, the write is
    accepted), [deleteImage] reports success, the removal leaves [C] as it
    is, and the document written back is the encoding of [C] itself. *)
Theorem delete_of_unlisted_filename {runtime : Runtime} (env : Env)
    (cfg : Config) (image : ImageMetadata) (C : Catalog) (w w1 : World)
    (r stored : Response) (content encoded : string) :
  ~ In (filename image) (filenames C) ->
  getConfig env = Ok cfg ->
  deleteBlobStep env cfg image w = (Ok tt, w1) ->
  respond env (trace w1) (fetchRequest env cfg metadataPath w1) = Ok r ->
  atob (gh_content (data r)) = Ok content ->
  JSON_parse content = Ok (catalogToJs C) ->
  btoa (JSON_stringify (catalogToJs C)) = Ok encoded ->
  respond env (trace (afterFetch env cfg metadataPath w1))
    (writeRequest cfg metadataPath encoded ("Remove image: " ++ filename image)
       (Some (gh_sha (data r))))
  = Ok stored ->
  removeByFilename (catalogToJs C) (filename image) = Ok (catalogToJs C)
  /\ deleteImage env image w
     = (Ok {| delete_success := true; delete_error := None |},
        afterSend
          (writeRequest cfg metadataPath encoded
             ("Remove image: " ++ filename image) (Some (gh_sha (data r))))
          (afterFetch env cfg metadataPath w1)).
Proof.
  intros Hunlisted configured Hblob Hanswer Hatob Hparse Hbtoa Hput.
  assert (Hnoop : removeByFilename (catalogToJs C) (filename image)
                  = Ok (catalogToJs C)).
  { now rewrite removeByFilename_catalog, keepOthers_absent. }
  split; [exact Hnoop|].
  rewrite (deleteImage_run env cfg image w configured), Hblob.
  pose proof (deleteCatalogStep_run env cfg configured image w1) as Hrun.
  cbv zeta in Hrun. rewrite Hrun, Hanswer. unfold decoded.
  rewrite Hatob, Hparse, Hnoop. unfold writeBack.
  rewrite Hbtoa. cbv zeta. now rewrite Hput.
Qed.

Lemma delete_of_unlisted_filename_witness :
  removeByFilename (catalogToJs [Fixtures.entry "1_a.png"]) "2_b.png"
  = Ok (catalogToJs [Fixtures.entry "1_a.png"])
  /\ deleteImage (runtime := Fixtures.runtimeFor [catalogToJs [Fixtures.entry "1_a.png"]])
       (Fixtures.scripted
          [Fixtures.notFound;
           Ok (Fixtures.fileOf (Fixtures.render (catalogToJs [Fixtures.entry "1_a.png"]))
                 "c1");
           Ok (Fixtures.fileOf "" "c2")]
          Fixtures.millis)
       (Fixtures.entry "2_b.png") initialWorld
     = (Ok {| delete_success := true; delete_error := None |},
        {| trace :=
             [GET "owner/repo" "images/2_b.png" "main" 1700000000000;
              GET "owner/repo" "metadata.json" "main" 1700000000001;
              PUT "owner/repo" "metadata.json"
                {| put_message := "Remove image: 2_b.png";
                   put_content :=
                     Some (Fixtures.render (catalogToJs [Fixtures.entry "1_a.png"]));
                   put_branch := "main";
                   put_sha := Some "c1" |}];
           clockReads := 2 |}).
Proof.
  exact (delete_of_unlisted_filename
           (runtime := Fixtures.runtimeFor [catalogToJs [Fixtures.entry "1_a.png"]])
           (Fixtures.scripted
              [Fixtures.notFound;
               Ok (Fixtures.fileOf
                     (Fixtures.render (catalogToJs [Fixtures.entry "1_a.png"])) "c1");
               Ok (Fixtures.fileOf "" "c2")]
              Fixtures.millis)
           Fixtures.config (Fixtures.entry "2_b.png") [Fixtures.entry "1_a.png"]
           initialWorld
           {| trace := [GET "owner/repo" "images/2_b.png" "main" 1700000000000];
              clockReads := 1 |}
           (Fixtures.fileOf (Fixtures.render (catalogToJs [Fixtures.entry "1_a.png"]))
              "c1")
           (Fixtures.fileOf "" "c2")
           (Fixtures.render (catalogToJs [Fixtures.entry "1_a.png"]))
           (Fixtures.render (catalogToJs [Fixtures.entry "1_a.png"]))
           ltac:(simpl; intros [H|[]]; discriminate H)
           eq_refl eq_refl eq_refl eq_refl eq_refl eq_refl eq_refl).
Defined.

(** ** Uniqueness of filenames *)


Lemma deleteCatalogStep_writes_filtered {runtime : Runtime} (env : Env)
    (cfg : Config) (C : Catalog) (w : World) (r : Response) (content : string)
    (image : ImageMetadata) :
  getConfig env = Ok cfg ->
  respond env (trace w) (fetchRequest env cfg metadataPath w) = Ok r ->
  atob (gh_content (data r)) = Ok content ->
  JSON_parse content = Ok (catalogToJs C) ->
  deleteCatalogStep env image w
  = match writeBack env cfg (Ok (catalogToJs (keepOthers (filename image) C)))
            ("Remove image: " ++ filename image) (Some (gh_sha (data r)))
            (afterFetch env cfg metadataPath w)
    with
    | (Ok _, w2) => (Ok deleted, w2)
    | (Throw e, w2) => (Throw e, w2)
    end.
Proof.
  intros configured Hanswer Hatob Hparse.
  pose proof (deleteCatalogStep_run env cfg configured image w) as Hrun.
  cbv zeta in Hrun. rewrite Hrun, Hanswer. unfold decoded.
  now rewrite Hatob, Hparse, removeByFilename_catalog.
Qed.

(** C5, as the code has it.  From a catalog whose filenames are pairwise
    distinct, delete always produces such a catalog again (and one that no
    longer lists the removed filename); upload does so whenever the filename
    it generated is not yet listed, which the code does not check. *)
Theorem filename_uniqueness_preserved (C : Catalog) :
  NoDup (filenames C) ->
  (forall name,
      removeByFilename (catalogToJs C) name = Ok (catalogToJs (keepOthers name C))
      /\ NoDup (filenames (keepOthers name C))
      /\ ~ In name (filenames (keepOthers name C)))
  /\ (forall now originalName description imageUrl timestamp blobSha,
        let E := newImageOf (makeFilename now originalName) description imageUrl
                   timestamp blobSha in
        ~ In (makeFilename now originalName) (filenames C) ->
        prependEntry (catalogToJs C) (imageToJs E) = Ok (catalogToJs (E :: C))
        /\ NoDup (filenames (E :: C))).
Proof.
  intros Hunique. split.
  - intros name. split; [apply removeByFilename_catalog|].
    split; [now apply keepOthers_unique | apply keepOthers_removes].
  - intros now originalName description imageUrl timestamp blobSha E Hfresh.
    split; [apply prependEntry_catalog|].
    unfold filenames. cbn [List.map]. now constructor.
Qed.

Lemma filename_uniqueness_preserved_witness :
  (forall name,
      removeByFilename (catalogToJs [Fixtures.entry "1_a.png"]) name
      = Ok (catalogToJs (keepOthers name [Fixtures.entry "1_a.png"]))
      /\ NoDup (filenames (keepOthers name [Fixtures.entry "1_a.png"]))
      /\ ~ In name (filenames (keepOthers name [Fixtures.entry "1_a.png"])))
  /\ (forall now originalName description imageUrl timestamp blobSha,
        ~ In (makeFilename now originalName) (filenames [Fixtures.entry "1_a.png"]) ->
        prependEntry (catalogToJs [Fixtures.entry "1_a.png"])
          (imageToJs (newImageOf (makeFilename now originalName) description
                        imageUrl timestamp blobSha))
        = Ok (catalogToJs
                [newImageOf (makeFilename now originalName) description imageUrl
                   timestamp blobSha;
                 Fixtures.entry "1_a.png"])
        /\ NoDup (filenames
                    [newImageOf (makeFilename now originalName) description
                       imageUrl timestamp blobSha;
                     Fixtures.entry "1_a.png"])).
Proof.
  apply (filename_uniqueness_preserved [Fixtures.entry "1_a.png"]).
  repeat constructor. simpl. tauto.
Defined.

(** C5, as stated, fails for upload: the catalog lists
    [1700000000001_a.png] once; an upload of [a.png] whose [Date.now()]
    reads 1700000000001 generates that filename again, succeeds, and writes
    a catalog that lists it twice. *)
Lemma upload_can_repeat_a_filename :
  NoDup (filenames [Fixtures.entry "1700000000001_a.png"])
  /\ uploadImage
       (runtime := Fixtures.runtimeFor [catalogToJs [Fixtures.entry "1700000000001_a.png"]])
       (Fixtures.scripted
          [Ok (Fixtures.fileOf "" "b2");
           Ok (Fixtures.fileOf
                 (Fixtures.render (catalogToJs [Fixtures.entry "1700000000001_a.png"]))
                 "c1");
           Ok (Fixtures.fileOf "" "c2")]
          Fixtures.millis)
       {| file_name := "a.png"; file_type := "image/png"; file_size := 4;
          file_dataURL := Some "data:image/png;base64,AAAA" |}
       "again" initialWorld
     = (Ok {| upload_success := true;
              upload_url :=
                Some "https://github.com/owner/repo/blob/main/images/1700000000001_a.png?raw=true";
              upload_error := None |},
        {| trace :=
             [PUT "owner/repo" "images/1700000000001_a.png"
                {| put_message := "Upload image: 1700000000001_a.png";
                   put_content := Some "AAAA";
                   put_branch := "main";
                   put_sha := None |};
              GET "owner/repo" "metadata.json" "main" 1700000000002;
              PUT "owner/repo" "metadata.json"
                {| put_message := "Add image: 1700000000001_a.png";
                   put_content :=
                     Some (Fixtures.render
                             (catalogToJs
                                [newImageOf "1700000000001_a.png" "again"
                                   "https://github.com/owner/repo/blob/main/images/1700000000001_a.png?raw=true"
                                   "T1700000000000" (Some "b2");
                                 Fixtures.entry "1700000000001_a.png"]));
                   put_branch := "main";
                   put_sha := Some "c1" |}];
           clockReads := 3 |})
  /\ ~ NoDup (filenames
                [newImageOf "1700000000001_a.png" "again"
                   "https://github.com/owner/repo/blob/main/images/1700000000001_a.png?raw=true"
                   "T1700000000000" (Some "b2");
                 Fixtures.entry "1700000000001_a.png"]).
Proof.
  split; [repeat constructor; simpl; tauto|].
  split; [vm_compute; reflexivity|].
  intros Hdup. inversion Hdup as [|? ? Hnotin _]. apply Hnotin. now left.
Qed.

(* ================================================================= *)
(** * Further properties of the service *)

(** ** Strings *)

Lemma forallb_append (p : ascii -> bool) (a b : string) :
  Str.forallb p (a ++ b) = Str.forallb p a && Str.forallb p b.
Proof.
  induction a as [|c a IH]; [reflexivity|].
  simpl. rewrite IH. apply andb_assoc.
Qed.

Lemma forallb_weaken (p q : ascii -> bool) (s : string) :
  (forall c, p c = true -> q c = true) ->
  Str.forallb p s = true -> Str.forallb q s = true.
Proof.
  intros Hpq. induction s as [|c s IH]; [reflexivity|].
  simpl. intros H. apply andb_true_iff in H as [Hc Hs].
  apply andb_true_iff. auto.
Qed.

Lemma split_lacking (sep : ascii) (s : string) :
  lacksChar sep s = true -> Str.split sep s = [s].
Proof.
  unfold lacksChar. induction s as [|c s IH]; [reflexivity|].
  simpl. intros H. apply andb_true_iff in H as [Hc Hs].
  apply negb_true_iff in Hc. rewrite Hc, (IH Hs). reflexivity.
Qed.

Lemma split_at_first (sep : ascii) (head rest : string) :
  lacksChar sep head = true ->
  Str.split sep (head ++ String sep rest) = head :: Str.split sep rest.
Proof.
  unfold lacksChar. induction head as [|c head IH].
  - intros _. simpl. now rewrite Ascii.eqb_refl.
  - simpl. intros H. apply andb_true_iff in H as [Hc Hs].
    apply negb_true_iff in Hc. rewrite Hc, (IH Hs). reflexivity.
Qed.

Lemma append_inv_head (p a b : string) : p ++ a = p ++ b -> a = b.
Proof.
  induction p as [|c p IH]; simpl; [auto|].
  intros [= H]. auto.
Qed.

Lemma length_append (a b : string) :
  String.length (a ++ b) = String.length a + String.length b.
Proof. induction a as [|c a IH]; simpl; [reflexivity | now rewrite IH]. Qed.

Lemma append_inv_tail (a b t : string) : a ++ t = b ++ t -> a = b.
Proof.
  revert b. induction a as [|c a IH]; intros [|d b] H.
  - reflexivity.
  - apply (f_equal String.length) in H. simpl in H.
    rewrite length_append in H. lia.
  - apply (f_equal String.length) in H. simpl in H.
    rewrite length_append in H. lia.
  - simpl in H. injection H as -> H. f_equal. auto.
Qed.

Lemma separator_unique (p1 p2 r1 r2 : string) :
  underscoreFree p1 -> underscoreFree p2 ->
  p1 ++ "_" ++ r1 = p2 ++ "_" ++ r2 -> p1 = p2 /\ r1 = r2.
Proof.
  unfold underscoreFree. revert p2.
  induction p1 as [|c p1 IH]; intros [|d p2]; simpl; intros H1 H2 H.
  - injection H as ->. auto.
  - injection H as <- _. discriminate H2.
  - injection H as -> _. discriminate H1.
  - injection H as -> H.
    apply andb_true_iff in H1 as [_ H1]. apply andb_true_iff in H2 as [_ H2].
    destruct (IH p2 H1 H2 H) as [-> ->]. auto.
Qed.

Lemma ofZ_injective (n m : Z) : Str.ofZ n = Str.ofZ m -> n = m.
Proof.
  unfold Str.ofZ. intros H.
  assert (Hparse : forall z,
             NilZero.int_of_string (NilZero.string_of_int (Z.to_int z))
             = Some (Z.to_int z)).
  { intros z. apply NilZero.isi; destruct z; simpl; try discriminate;
      intros [= Hnil]; now apply DecimalPos.Unsigned.to_uint_nonnil in Hnil. }
  apply DecimalZ.to_int_inj.
  pose proof (Hparse n) as Hn. rewrite H, Hparse in Hn. now injection Hn.
Qed.

(** ** Generated filenames and addresses *)

(** X1. Two generated filenames are equal only if they were generated at the
    same millisecond from names with the same sanitised form: uploads at
    different clock readings never collide. *)
Theorem makeFilename_injective (n1 n2 : Z) (name1 name2 : string) :
  makeFilename n1 name1 = makeFilename n2 name2 ->
  n1 = n2 /\ sanitizeName name1 = sanitizeName name2.
Proof.
  unfold makeFilename. intros H.
  destruct (separator_unique (Str.ofZ n1) (Str.ofZ n2) _ _
              (ofZ_underscoreFree n1) (ofZ_underscoreFree n2) H) as [Hn Hs].
  split; [now apply ofZ_injective | exact Hs].
Qed.

Lemma makeFilename_injective_witness :
  1700000000000%Z = 1700000000000%Z
  /\ sanitizeName "my photo.png" = sanitizeName "my_photo.png".
Proof.
  apply (makeFilename_injective 1700000000000 1700000000000
           "my photo.png" "my_photo.png").
  reflexivity.
Defined.

Lemma digits_in_class (d : Decimal.uint) :
  Str.forallb inNameClass (NilEmpty.string_of_uint d) = true.
Proof. induction d; simpl; auto. Qed.

Lemma ofZ_in_class (n : Z) : Str.forallb inNameClass (Str.ofZ n) = true.
Proof.
  assert (Huint : forall d, Str.forallb inNameClass (NilZero.string_of_uint d) = true).
  { intros d. destruct d; [reflexivity | ..];
      match goal with
      | |- Str.forallb _ (NilZero.string_of_uint ?u) = true =>
          exact (digits_in_class u)
      end. }
  unfold Str.ofZ, NilZero.string_of_int.
  destruct (Z.to_int n) as [d|d]; [apply Huint|].
  cbn [Str.forallb]. now rewrite Huint.
Qed.

Lemma class_lacks_slash (c : ascii) :
  inNameClass c || Ascii.eqb c "_" = true -> negb (Ascii.eqb c "/") = true.
Proof.
  destruct (Ascii.eqb_spec c "/") as [->|]; [discriminate | reflexivity].
Qed.

(** X2. Every character of a generated filename, timestamp prefix included,
    is a letter, a digit, a dot, a hyphen or an underscore.  In particular
    it has no slash: the path of the blob has exactly the two segments
    [images] and the filename, whatever the original name was. *)
Theorem generated_path_stays_in_images (now : Z) (originalName : string) :
  matchesNameClassOrUnderscore (makeFilename now originalName) = true
  /\ lacksChar "/" (makeFilename now originalName) = true
  /\ Str.split "/" (imagePathOf (makeFilename now originalName))
     = ["images"; makeFilename now originalName].
Proof.
  assert (Hclass : matchesNameClassOrUnderscore (makeFilename now originalName) = true).
  { unfold matchesNameClassOrUnderscore, makeFilename.
    rewrite !forallb_append. apply andb_true_iff. split.
    - apply forallb_weaken with (p := inNameClass); [|apply ofZ_in_class].
      intros c ->. reflexivity.
    - apply andb_true_iff. split; [reflexivity|].
      apply sanitizeName_matches. }
  assert (Hslash : lacksChar "/" (makeFilename now originalName) = true).
  { unfold lacksChar. revert Hclass. unfold matchesNameClassOrUnderscore.
    apply forallb_weaken. exact class_lacks_slash. }
  repeat split; [exact Hclass | exact Hslash |].
  unfold imagePathOf.
  change ("images/" ++ makeFilename now originalName)
    with ("images" ++ String "/" (makeFilename now originalName)).
  rewrite split_at_first by reflexivity.
  now rewrite split_lacking.
Qed.

(** X3. Sanitising is idempotent, and the names it leaves unchanged are
    exactly those made of letters, digits, dots, hyphens and underscores. *)
Theorem sanitizeName_idempotent (name : string) :
  sanitizeName (sanitizeName name) = sanitizeName name
  /\ (sanitizeName name = name <-> matchesNameClassOrUnderscore name = true).
Proof.
  split.
  - induction name as [|c name IH]; [reflexivity|].
    unfold sanitizeName in *. simpl. rewrite IH.
    destruct (inNameClass c) eqn:Hc; [now rewrite Hc | reflexivity].
  - unfold sanitizeName, matchesNameClassOrUnderscore.
    induction name as [|c name IH]; [simpl; tauto|].
    simpl. rewrite andb_true_iff, <- IH. split.
    + intros [= Hc Hrest]. split; [|exact Hrest].
      destruct (inNameClass c); [reflexivity|]. rewrite <- Hc. reflexivity.
    + intros [Hc Hrest]. rewrite Hrest. f_equal.
      destruct (inNameClass c); [reflexivity|].
      simpl in Hc. apply Ascii.eqb_eq in Hc. now subst.
Qed.

Lemma getGitHubUrl_configured (env : Env) (cfg : Config) (name : string) :
  getConfig env = Ok cfg -> getGitHubUrl env name = Ok (urlOf cfg name).
Proof. unfold getGitHubUrl. now intros ->. Qed.

(** X4. Under one configuration the address of an image determines its
    filename: [getGitHubUrl] yields
    [https://github.com/<repo>/blob/<branch>/images/<filename>?raw=true],
    and two filenames with the same address are equal. *)
Theorem getGitHubUrl_injective (env : Env) (cfg : Config) (name1 name2 : string) :
  getConfig env = Ok cfg ->
  getGitHubUrl env name1
  = Ok ("https://github.com/" ++ cfg_repo cfg ++ "/blob/" ++ cfg_branch cfg
        ++ "/images/" ++ name1 ++ "?raw=true")
  /\ (getGitHubUrl env name1 = getGitHubUrl env name2 -> name1 = name2).
Proof.
  intros configured. rewrite !(getGitHubUrl_configured env cfg _ configured).
  split; [reflexivity|]. intros H.
  assert (Hurl : urlOf cfg name1 = urlOf cfg name2) by congruence.
  unfold urlOf in Hurl.
  apply (append_inv_head "https://github.com/") in Hurl.
  apply (append_inv_head (cfg_repo cfg)) in Hurl.
  apply (append_inv_head "/blob/") in Hurl.
  apply (append_inv_head (cfg_branch cfg)) in Hurl.
  apply (append_inv_head "/images/") in Hurl.
  now apply append_inv_tail in Hurl.
Qed.

Lemma getGitHubUrl_injective_witness :
  getGitHubUrl (Fixtures.scripted [] Fixtures.millis) "1_a.png"
  = Ok "https://github.com/owner/repo/blob/main/images/1_a.png?raw=true"
  /\ (getGitHubUrl (Fixtures.scripted [] Fixtures.millis) "1_a.png"
      = getGitHubUrl (Fixtures.scripted [] Fixtures.millis) "1_a.png"
      -> "1_a.png" = "1_a.png").
Proof.
  apply (getGitHubUrl_injective (Fixtures.scripted [] Fixtures.millis)
           Fixtures.config "1_a.png" "1_a.png").
  reflexivity.
Defined.

(** X5. [fileToBase64] removes the header of a data URL: when the reader
    delivers [<header>,<payload>] with no comma in the header and none in
    the payload, the result is the payload.  When the reader delivers a text
    without a comma the result is [undefined], and when the reader fails the
    promise is rejected with a value that is not an [Error]. *)
Theorem fileToBase64_strips_header (file : File) :
  (forall header payload,
      lacksChar "," header = true -> lacksChar "," payload = true ->
      file_dataURL file = Some (header ++ "," ++ payload) ->
      fileToBase64 file = Ok (Some payload))
  /\ (forall text,
        lacksChar "," text = true ->
        file_dataURL file = Some text -> fileToBase64 file = Ok None)
  /\ (file_dataURL file = None -> fileToBase64 file = Throw NonError).
Proof.
  unfold fileToBase64, afterComma. split; [|split].
  - intros header payload Hheader Hpayload ->.
    change (header ++ "," ++ payload) with (header ++ String "," payload).
    now rewrite split_at_first, split_lacking.
  - intros text Htext ->. now rewrite split_lacking.
  - now intros ->.
Qed.

(** ** The catalog mutations on any parsed document *)

Lemma assoc_update_same (key : string) (v : JsValue) (fields : list (string * JsValue)) :
  Js.assoc key (Js.update key v fields) = Some v.
Proof.
  induction fields as [|[k old] fields IH]; simpl.
  - now rewrite String.eqb_refl.
  - destruct (String.eqb k key) eqn:Hk; simpl; now rewrite Hk.
Qed.

Lemma update_update (key : string) (v v' : JsValue) (fields : list (string * JsValue)) :
  Js.update key v (Js.update key v' fields) = Js.update key v fields.
Proof.
  induction fields as [|[k old] fields IH]; simpl.
  - now rewrite String.eqb_refl.
  - destruct (String.eqb k key) eqn:Hk; simpl; rewrite Hk; [reflexivity|].
    now rewrite IH.
Qed.

Lemma others_after_update (v new : JsValue) (fields : list (string * JsValue)) :
  Js.assoc "images" fields = Some v ->
  List.filter (fun kv => negb (String.eqb (fst kv) "images"))
    (Js.update "images" new fields)
  = List.filter (fun kv => negb (String.eqb (fst kv) "images")) fields.
Proof.
  induction fields as [|[k old] fields IH]; [discriminate|].
  cbn [Js.assoc Js.update].
  destruct (String.eqb k "images") eqn:Hk; intros H; cbn [List.filter fst];
    rewrite Hk; cbn [negb]; [reflexivity|].
  now rewrite IH.
Qed.

Lemma imagesArray_spec (method : string) (m : JsValue) :
  match imagesArray method m with
  | Ok items => isCatalogShaped m = true /\ imagesOf m = items
  | Throw e => isCatalogShaped m = false /\ exists msg, e = JsError msg
  end.
Proof.
  unfold imagesArray, isCatalogShaped, imagesOf.
  destruct m as [| | | | |fields]; simpl; eauto.
  destruct (Js.assoc "images" fields) as [[| | | | |]|]; eauto.
Qed.

Lemma imagesArray_shaped (method : string) (m : JsValue) :
  isCatalogShaped m = true -> imagesArray method m = Ok (imagesOf m).
Proof.
  intros H. pose proof (imagesArray_spec method m) as Hspec.
  destruct (imagesArray method m); [now destruct Hspec as [_ ->]|].
  destruct Hspec; congruence.
Qed.

Lemma setImages_shaped (m : JsValue) (items : list JsValue) :
  isCatalogShaped m = true ->
  isCatalogShaped (setImages m items) = true
  /\ imagesOf (setImages m items) = items
  /\ otherFields (setImages m items) = otherFields m.
Proof.
  unfold isCatalogShaped, imagesOf, setImages, otherFields.
  destruct m as [| | | | |fields]; try discriminate.
  destruct (Js.assoc "images" fields) as [v|] eqn:Himages; [|discriminate].
  intros _. rewrite assoc_update_same. repeat split.
  now apply others_after_update with (v := v).
Qed.

Lemma setImages_twice (m : JsValue) (items items' : list JsValue) :
  setImages (setImages m items') items = setImages m items.
Proof.
  destruct m; simpl; try reflexivity. now rewrite update_update.
Qed.

Lemma filterByFilename_spec (items : list JsValue) (name : string) :
  filterByFilename items name
  = if existsb isNull items then Throw nullFilenameError
    else Ok (List.filter (hasOtherFilename name) items).
Proof.
  induction items as [|img items IH]; [reflexivity|].
  cbn [filterByFilename existsb List.filter]. rewrite IH.
  destruct img; cbn [Js.get isNull orb hasOtherFilename Js.strictNotEqual];
    try reflexivity; destruct (existsb isNull items); reflexivity.
Qed.

Lemma filter_has_no_null (name : string) (items : list JsValue) :
  existsb isNull items = false ->
  existsb isNull (List.filter (hasOtherFilename name) items) = false.
Proof.
  induction items as [|img items IH]; [reflexivity|].
  cbn [existsb List.filter]. intros H. apply orb_false_iff in H as [Himg Hrest].
  destruct (hasOtherFilename name img); cbn [existsb]; rewrite ?Himg; auto.
Qed.

Lemma filter_filter_same {A : Type} (p : A -> bool) (l : list A) :
  List.filter p (List.filter p l) = List.filter p l.
Proof.
  induction l as [|a l IH]; [reflexivity|].
  simpl. destruct (p a) eqn:Hp; simpl; rewrite ?Hp, IH; reflexivity.
Qed.

Lemma filter_filter_swap {A : Type} (p q : A -> bool) (l : list A) :
  List.filter p (List.filter q l) = List.filter q (List.filter p l).
Proof.
  induction l as [|a l IH]; [reflexivity|].
  simpl. destruct (p a) eqn:Hp, (q a) eqn:Hq; simpl; rewrite ?Hp, ?Hq, IH;
    reflexivity.
Qed.

Lemma removeByFilename_spec (m : JsValue) (name : string) :
  removeByFilename m name
  = match imagesArray "filter" m with
    | Throw e => Throw e
    | Ok items =>
        if existsb isNull items then Throw nullFilenameError
        else Ok (setImages m (List.filter (hasOtherFilename name) items))
    end.
Proof.
  unfold removeByFilename. destruct (imagesArray "filter" m) as [items|]; [|reflexivity].
  rewrite filterByFilename_spec. now destruct (existsb isNull items).
Qed.

Lemma prependEntry_outcome_shape (metadata newImage : JsValue) :
  match prependEntry metadata newImage with
  | Ok after => isCatalogShaped metadata = true /\ imagesOf after = newImage :: imagesOf metadata
  | Throw e => isCatalogShaped metadata = false /\ exists message, e = JsError message
  end.
Proof.
  unfold prependEntry.
  pose proof (imagesArray_spec "unshift" metadata) as Hspec.
  destruct (imagesArray "unshift" metadata) as [items|e]; [|exact Hspec].
  destruct Hspec as [Hshaped <-].
  now destruct (setImages_shaped metadata (newImage :: imagesOf metadata) Hshaped)
    as [_ [H2 _]].
Qed.

(** X6. [metadata.images.unshift(newImage)] succeeds exactly on a document
    that is an object whose [images] is an array.  It then puts the new
    entry in front of the existing ones and leaves every other field of the
    document as it was; on any other document it raises a [TypeError] and
    changes nothing. *)
Theorem prependEntry_outcome (metadata newImage : JsValue) :
  match prependEntry metadata newImage with
  | Ok after =>
      isCatalogShaped metadata = true
      /\ isCatalogShaped after = true
      /\ imagesOf after = newImage :: imagesOf metadata
      /\ otherFields after = otherFields metadata
  | Throw e =>
      isCatalogShaped metadata = false /\ exists message, e = JsError message
  end.
Proof.
  unfold prependEntry.
  pose proof (imagesArray_spec "unshift" metadata) as Hspec.
  destruct (imagesArray "unshift" metadata) as [items|e]; [|exact Hspec].
  destruct Hspec as [Hshaped <-].
  destruct (setImages_shaped metadata (newImage :: imagesOf metadata) Hshaped)
    as [H1 [H2 H3]].
  auto.
Qed.

(** X7. The removal of delete,
    [metadata.images = metadata.images.filter(img => img.filename !== name)],
    succeeds exactly on a document that is an object whose [images] is an
    array without a [null] element.  It then keeps, in order, the elements
    whose [filename] is not the string [name] (elements without a
    [filename] included), leaves the other fields as they were, and
    removing the same name again changes nothing. *)
Theorem removeByFilename_outcome (metadata : JsValue) (name : string) :
  match removeByFilename metadata name with
  | Ok after =>
      isCatalogShaped metadata = true
      /\ existsb isNull (imagesOf metadata) = false
      /\ isCatalogShaped after = true
      /\ imagesOf after = List.filter (hasOtherFilename name) (imagesOf metadata)
      /\ otherFields after = otherFields metadata
      /\ removeByFilename after name = Ok after
  | Throw e =>
      (isCatalogShaped metadata = false
       \/ existsb isNull (imagesOf metadata) = true)
      /\ exists message, e = JsError message
  end.
Proof.
  rewrite removeByFilename_spec.
  pose proof (imagesArray_spec "filter" metadata) as Hspec.
  destruct (imagesArray "filter" metadata) as [items|e];
    [|destruct Hspec; auto].
  destruct Hspec as [Hshaped <-].
  destruct (existsb isNull (imagesOf metadata)) eqn:Hnull.
  - split; [now right | now eexists].
  - destruct (setImages_shaped metadata
                (List.filter (hasOtherFilename name) (imagesOf metadata)) Hshaped)
      as [H1 [H2 H3]].
    repeat split; auto.
    rewrite removeByFilename_spec, (imagesArray_shaped "filter" _ H1), H2.
    rewrite (filter_has_no_null name _ Hnull), filter_filter_same.
    now rewrite setImages_twice.
Qed.

(** X8. Two removals commute on every document: removing [a] and then [b]
    gives the same document, or raises the same error, as removing [b] and
    then [a]. *)
Theorem removals_commute (metadata : JsValue) (a b : string) :
  andThen (removeByFilename metadata a) (fun after => removeByFilename after b)
  = andThen (removeByFilename metadata b) (fun after => removeByFilename after a).
Proof.
  rewrite !(removeByFilename_spec metadata).
  pose proof (imagesArray_spec "filter" metadata) as Hspec.
  destruct (imagesArray "filter" metadata) as [items|e]; [|reflexivity].
  destruct Hspec as [Hshaped <-].
  destruct (existsb isNull (imagesOf metadata)) eqn:Hnull; [reflexivity|].
  cbn [andThen]. rewrite !removeByFilename_spec.
  destruct (setImages_shaped metadata
              (List.filter (hasOtherFilename a) (imagesOf metadata)) Hshaped)
    as [Ha [Ha' _]].
  destruct (setImages_shaped metadata
              (List.filter (hasOtherFilename b) (imagesOf metadata)) Hshaped)
    as [Hb [Hb' _]].
  rewrite (imagesArray_shaped "filter" _ Ha), (imagesArray_shaped "filter" _ Hb).
  rewrite Ha', Hb', !filter_has_no_null by exact Hnull.
  rewrite !setImages_twice. f_equal. f_equal. apply filter_filter_swap.
Qed.

(** X9. On a document that is an object whose [images] is an array, adding
    an entry and removing another filename can be done in either order:
    both give the same document, or both raise the same error (when the
    array has a [null] element). *)
Theorem prepend_commutes_with_other_removal (metadata : JsValue)
    (E : ImageMetadata) (name : string) :
  isCatalogShaped metadata = true ->
  filename E <> name ->
  andThen (prependEntry metadata (imageToJs E))
    (fun after => removeByFilename after name)
  = andThen (removeByFilename metadata name)
      (fun after => prependEntry after (imageToJs E)).
Proof.
  intros Hshaped Hother.
  unfold prependEntry at 1. rewrite (imagesArray_shaped "unshift" _ Hshaped).
  cbn [andThen]. rewrite !removeByFilename_spec.
  destruct (setImages_shaped metadata (imageToJs E :: imagesOf metadata) Hshaped)
    as [H1 [H2 _]].
  rewrite (imagesArray_shaped "filter" _ H1), H2.
  rewrite (imagesArray_shaped "filter" _ Hshaped).
  cbn [existsb isNull imageToJs orb].
  destruct (existsb isNull (imagesOf metadata)) eqn:Hnull; [reflexivity|].
  cbn [andThen]. unfold prependEntry.
  destruct (setImages_shaped metadata
              (List.filter (hasOtherFilename name) (imagesOf metadata)) Hshaped)
    as [H3 [H4 _]].
  rewrite (imagesArray_shaped "unshift" _ H3), H4, !setImages_twice.
  f_equal. f_equal. cbn [List.filter hasOtherFilename Js.assoc String.eqb].
  simpl. apply String.eqb_neq in Hother. now rewrite Hother.
Qed.

Lemma prepend_commutes_with_other_removal_witness :
  andThen (prependEntry (catalogToJs [Fixtures.entry "1_a.png"])
             (imageToJs (Fixtures.entry "2_b.png")))
    (fun after => removeByFilename after "1_a.png")
  = andThen (removeByFilename (catalogToJs [Fixtures.entry "1_a.png"]) "1_a.png")
      (fun after => prependEntry after (imageToJs (Fixtures.entry "2_b.png"))).
Proof.
  apply (prepend_commutes_with_other_removal
           (catalogToJs [Fixtures.entry "1_a.png"]) (Fixtures.entry "2_b.png")
           "1_a.png"); [reflexivity | discriminate].
Defined.

(** ** Configuration *)

Lemma getConfig_hasConfig (env : Env) :
  match getConfig env with
  | Ok cfg =>
      hasConfig env = true
      /\ VITE_GITHUB_TOKEN env = Some (cfg_token cfg)
      /\ VITE_GITHUB_REPO env = Some (cfg_repo cfg)
      /\ cfg_branch cfg = orElse (VITE_GITHUB_BRANCH env) "main"
  | Throw e => hasConfig env = false /\ e = JsError missingConfigMessage
  end.
Proof.
  unfold getConfig, hasConfig, truthyVariable.
  destruct (VITE_GITHUB_TOKEN env) as [token|];
    destruct (VITE_GITHUB_REPO env) as [repo|]; cbn [andb]; auto.
  - destruct (Str.truthy token), (Str.truthy repo); cbn; auto.
  - now rewrite andb_false_r.
Qed.

(** X10. The guard of [ImageManager] and the guard of [getConfig] agree: the
    configuration screen is shown exactly when [getConfig] would throw.
    When it does not throw, the token and the repository are the two
    variables and the branch is [VITE_GITHUB_BRANCH], or [main] when that
    variable is unset or empty. *)
Theorem configuration_guards_agree (env : Env) :
  (hasConfig env = true <->
   exists cfg, getConfig env = Ok cfg
               /\ VITE_GITHUB_TOKEN env = Some (cfg_token cfg)
               /\ VITE_GITHUB_REPO env = Some (cfg_repo cfg)
               /\ cfg_branch cfg = orElse (VITE_GITHUB_BRANCH env) "main")
  /\ (hasConfig env = false <-> getConfig env = Throw (JsError missingConfigMessage))
  /\ ((VITE_GITHUB_BRANCH env = None \/ VITE_GITHUB_BRANCH env = Some "") ->
      forall cfg, getConfig env = Ok cfg -> cfg_branch cfg = "main").
Proof.
  pose proof (getConfig_hasConfig env) as H.
  destruct (getConfig env) as [cfg|e].
  - destruct H as [Hhas [Htoken [Hrepo Hbranch]]]. split; [|split].
    + split; [eauto 6 | auto].
    + rewrite Hhas. split; discriminate.
    + intros Hunset cfg' [= <-]. rewrite Hbranch.
      destruct Hunset as [-> | ->]; reflexivity.
  - destruct H as [Hhas ->]. split; [|split].
    + rewrite Hhas. split; [discriminate | intros [cfg [Hcfg _]]; discriminate].
    + tauto.
    + discriminate.
Qed.

Lemma uploadImage_unconfigured {runtime : Runtime} (env : Env) (e : Thrown)
    (file : File) (description : string) (w : World) :
  getConfig env = Throw e ->
  uploadImage env file description w = (Ok (uploadFailed e), w).
Proof.
  intros Hcfg. unfold uploadImage, uploadBody, tryCatch, bind, lift, ret.
  now rewrite Hcfg.
Qed.

Lemma deleteImage_unconfigured {runtime : Runtime} (env : Env) (e : Thrown)
    (image : ImageMetadata) (w : World) :
  getConfig env = Throw e ->
  deleteImage env image w = (Ok (deleteFailed e), w).
Proof.
  intros Hcfg. unfold deleteImage, deleteBody, tryCatch, bind, lift, ret.
  now rewrite Hcfg.
Qed.

(** X11. Without a configuration nothing is sent: [uploadImage] and
    [deleteImage] return a failure that carries the configuration message,
    [fetchFile] raises it, and [fetchMetadata] returns the empty catalog;
    the trace and the clock are untouched. *)
Theorem unconfigured_service_sends_nothing {runtime : Runtime} (env : Env)
    (w : World) :
  hasConfig env = false ->
  (forall file description,
      uploadImage env file description w
      = (Ok {| upload_success := false; upload_url := None;
               upload_error := Some missingConfigMessage |}, w))
  /\ (forall image,
        deleteImage env image w
        = (Ok {| delete_success := false;
                 delete_error := Some missingConfigMessage |}, w))
  /\ (forall path,
        fetchFile env path w = (Throw (JsError missingConfigMessage), w))
  /\ fetchMetadata env w = (Ok emptyMetadata, w).
Proof.
  intros Hnone. pose proof (getConfig_hasConfig env) as H.
  destruct (getConfig env) as [cfg|e] eqn:Hcfg;
    [destruct H; congruence | destruct H as [_ ->]].
  split; [|split; [|split]].
  - intros file description.
    now rewrite (uploadImage_unconfigured env _ file description w Hcfg).
  - intros image.
    now rewrite (deleteImage_unconfigured env _ image w Hcfg).
  - intros path. now apply fetchFile_unconfigured.
  - unfold fetchMetadata, tryCatch, bind.
    now rewrite (fetchFile_unconfigured env _ metadataPath w Hcfg).
Qed.

Lemma unconfigured_service_sends_nothing_witness :
  fetchMetadata (runtime := Fixtures.runtimeFor [])
    {| VITE_GITHUB_TOKEN := Some "token"; VITE_GITHUB_REPO := None;
       VITE_GITHUB_BRANCH := None; clock := Fixtures.millis;
       respond := fun _ _ => Fixtures.notFound |}
    initialWorld
  = (Ok emptyMetadata, initialWorld).
Proof.
  exact (proj2 (proj2 (proj2
           (unconfigured_service_sends_nothing (runtime := Fixtures.runtimeFor [])
              {| VITE_GITHUB_TOKEN := Some "token"; VITE_GITHUB_REPO := None;
                 VITE_GITHUB_BRANCH := None; clock := Fixtures.millis;
                 respond := fun _ _ => Fixtures.notFound |}
              initialWorld eq_refl)))).
Defined.

(** ** The course of an upload *)

(** [uploadImage] step by step: two clock readings, the read of the file,
    the write of the blob, then the catalog synchronisation; any error ends
    the run with a failure result. *)
Lemma uploadImage_run {runtime : Runtime} (env : Env) (cfg : Config)
    (file : File) (description : string) (w : World) :
  getConfig env = Ok cfg ->
  let name := nameIn env w file in
  let w0 := afterTwoReadings w in
  uploadImage env file description w =
    match file_dataURL file with
    | None => (Ok (uploadFailed NonError), w0)
    | Some text =>
        let put := blobWrite cfg name (afterComma text) in
        match respond env (trace w) put with
        | Throw e => (Ok (uploadFailed e), afterSend put w0)
        | Ok response =>
            match uploadCatalogStep env name description (urlOf cfg name)
                    (toISOString (clock env (clockReads w)))
                    (data_content_sha response) (afterSend put w0)
            with
            | (Ok _, w2) => (Ok (uploaded (urlOf cfg name)), w2)
            | (Throw e, w2) => (Ok (uploadFailed e), w2)
            end
        end
    end.
Proof.
  intros configured name w0.
  unfold uploadImage, uploadBody, tryCatch, bind, lift, ret, dateNow, send,
    fileToBase64.
  rewrite configured, (createApiClient_ok env cfg configured).
  cbn [trace clockReads]. fold (nameIn env w file). fold name.
  destruct (file_dataURL file) as [text|]; [|reflexivity].
  cbv zeta. unfold blobWrite, afterSend. cbn [trace clockReads].
  destruct (respond env (trace w) _) as [response|e]; [|reflexivity].
  rewrite (getGitHubUrl_configured env cfg name configured).
  fold (afterTwoReadings w). unfold w0, afterTwoReadings.
  destruct (uploadCatalogStep env name description (urlOf cfg name) _ _ _)
    as [[[]|e] w2]; reflexivity.
Qed.

(** X12. The requests of an upload.  [uploadImage] sends nothing, or the
    write of the blob at [images/<generated filename>] without a revision
    token, possibly followed by the fetch of the catalog, possibly followed
    by the write of the catalog: at most three requests, in this order, and
    never a [DELETE].  When it reports success all three were sent. *)
Theorem upload_requests {runtime : Runtime} (env : Env) (file : File)
    (description : string) (w : World) :
  exists issued,
    trace (snd (uploadImage env file description w)) = (trace w ++ issued)%list
    /\ count isDelete issued = 0
    /\ (issued = []
        \/ exists cfg content,
             getConfig env = Ok cfg
             /\ let put := blobWrite cfg (nameIn env w file) content in
                let fetch := fetchRequest env cfg metadataPath
                               (afterSend put (afterTwoReadings w)) in
                issued = [put]
                \/ issued = [put; fetch]
                \/ exists payload,
                     issued = [put; fetch; PUT (cfg_repo cfg) metadataPath payload])
    /\ (forall r, fst (uploadImage env file description w) = Ok r ->
        upload_success r = true -> List.length issued = 3).
Proof.
  destruct (getConfig env) as [cfg|e] eqn:configured.
  - rewrite (uploadImage_run env cfg file description w configured). cbv zeta.
    destruct (file_dataURL file) as [text|].
    + set (put := blobWrite cfg (nameIn env w file) (afterComma text)).
      destruct (respond env (trace w) put) as [response|e].
      * pose proof (uploadCatalogStep_single_attempt env cfg
                      (afterSend put (afterTwoReadings w))
                      (nameIn env w file) description
                      (urlOf cfg (nameIn env w file))
                      (toISOString (clock env (clockReads w)))
                      (data_content_sha response) configured) as Hsingle.
        destruct (uploadCatalogStep env _ _ _ _ _ _) as [[[]|e] w2];
          destruct Hsingle as [issued [Htrace [_ [Hissued [Hok _]]]]];
          cbn [fst snd] in *;
          exists (put :: fetchRequest env cfg metadataPath
                           (afterSend put (afterTwoReadings w)) :: issued);
          (split; [rewrite Htrace; cbn [afterSend afterTwoReadings trace];
                   now rewrite <- app_assoc|]).
        -- specialize (Hok tt eq_refl). cbn in Hok.
           destruct Hissued as [-> | [payload [-> _]]]; [discriminate Hok|].
           split; [reflexivity|]. split; [|reflexivity].
           right. exists cfg, (afterComma text). split; [reflexivity|].
           cbv zeta. right. right. now exists payload.
        -- destruct Hissued as [-> | [payload [-> _]]].
           ++ split; [reflexivity|]. split; [|intros r [= <-]; discriminate].
              right. exists cfg, (afterComma text). split; [reflexivity|].
              cbv zeta. right. now left.
           ++ split; [reflexivity|]. split; [|intros r [= <-]; discriminate].
              right. exists cfg, (afterComma text). split; [reflexivity|].
              cbv zeta. right. right. now exists payload.
      * exists [put]. cbn [fst snd afterSend afterTwoReadings trace].
        split; [reflexivity|]. split; [reflexivity|]. split; [|intros r [= <-]; discriminate].
        right. exists cfg, (afterComma text). split; [reflexivity|].
        cbv zeta. now left.
    + exists []. cbn [fst snd afterTwoReadings trace].
      split; [now rewrite app_nil_r|]. split; [reflexivity|].
      split; [now left | intros r [= <-]; discriminate].
  - rewrite (uploadImage_unconfigured env e file description w configured).
    exists []. cbn [fst snd].
    split; [now rewrite app_nil_r|]. split; [reflexivity|].
    split; [now left | intros r [= <-]; discriminate].
Qed.

(** X13. An upload that fails before the catalog leaves the catalog alone.
    When the reader fails nothing is sent at all and the error is the
    generic one; when the store refuses the blob, the blob write is the only
    request: the catalog is neither fetched nor written. *)
Theorem upload_stops_before_catalog {runtime : Runtime} (env : Env)
    (cfg : Config) (file : File) (description : string) (w : World) :
  getConfig env = Ok cfg ->
  (file_dataURL file = None ->
   uploadImage env file description w
   = (Ok {| upload_success := false; upload_url := None;
            upload_error := Some "An unexpected error occurred." |},
      afterTwoReadings w))
  /\ (forall text e,
        file_dataURL file = Some text ->
        respond env (trace w) (blobWrite cfg (nameIn env w file) (afterComma text))
        = Throw e ->
        uploadImage env file description w
        = (Ok {| upload_success := false; upload_url := None;
                 upload_error := Some (getErrorMessage e) |},
           {| trace := trace w
                       ++ [blobWrite cfg (nameIn env w file) (afterComma text)];
              clockReads := S (S (clockReads w)) |})).
Proof.
  intros configured.
  pose proof (uploadImage_run env cfg file description w configured) as Hrun.
  cbv zeta in Hrun. split.
  - intros Hreader. now rewrite Hrun, Hreader.
  - intros text e Hreader Hrefused. now rewrite Hrun, Hreader, Hrefused.
Qed.

Lemma upload_stops_before_catalog_witness :
  uploadImage (runtime := Fixtures.runtimeFor [])
    (Fixtures.scripted [] Fixtures.millis)
    {| file_name := "a.png"; file_type := "image/png"; file_size := 4;
       file_dataURL := None |} "d" initialWorld
  = (Ok {| upload_success := false; upload_url := None;
           upload_error := Some "An unexpected error occurred." |},
     afterTwoReadings initialWorld).
Proof.
  exact (proj1 (upload_stops_before_catalog (runtime := Fixtures.runtimeFor [])
                  (Fixtures.scripted [] Fixtures.millis) Fixtures.config
                  {| file_name := "a.png"; file_type := "image/png"; file_size := 4;
                     file_dataURL := None |} "d" initialWorld eq_refl)
           eq_refl).
Defined.





(** X16. A document that parses but is not a catalog is not overwritten.
    When the catalog resource decodes to a value that is not an object with
    an [images] array, the synchronisation of upload and that of delete
    raise a [TypeError] after the fetch and write nothing; the same holds
    for delete when the array has a [null] element.  (A document that does
    not parse at all is, by contrast, replaced.) *)
Theorem unshaped_catalog_is_not_overwritten {runtime : Runtime} (env : Env)
    (cfg : Config) (w : World) (r : Response) :
  getConfig env = Ok cfg ->
  respond env (trace w) (fetchRequest env cfg metadataPath w) = Ok r ->
  (isCatalogShaped (decoded (data r)) = false ->
   (forall name description imageUrl timestamp blobSha,
       exists message,
         uploadCatalogStep env name description imageUrl timestamp blobSha w
         = (Throw (JsError message), afterFetch env cfg metadataPath w))
   /\ (forall image,
         exists message,
           deleteCatalogStep env image w
           = (Throw (JsError message), afterFetch env cfg metadataPath w)))
  /\ (isCatalogShaped (decoded (data r)) = true ->
      existsb isNull (imagesOf (decoded (data r))) = true ->
      forall image,
        deleteCatalogStep env image w
        = (Throw nullFilenameError, afterFetch env cfg metadataPath w)).
Proof.
  intros configured Hanswer. split.
  - intros Hunshaped. split.
    + intros name description imageUrl timestamp blobSha.
      pose proof (uploadCatalogStep_run env cfg configured name description
                    imageUrl timestamp blobSha w) as Hrun.
      cbv zeta in Hrun. rewrite Hrun, Hanswer.
      pose proof (prependEntry_outcome_shape (decoded (data r))
                    (imageToJs (newImageOf name description imageUrl timestamp
                                  blobSha))) as Hshape.
      destruct (prependEntry (decoded (data r)) _) as [after|e].
      * destruct Hshape as [Hshaped _]. congruence.
      * destruct Hshape as [_ [message ->]]. now exists message.
    + intros image.
      pose proof (deleteCatalogStep_run env cfg configured image w) as Hrun.
      cbv zeta in Hrun. rewrite Hrun, Hanswer, removeByFilename_spec.
      pose proof (imagesArray_spec "filter" (decoded (data r))) as Hspec.
      destruct (imagesArray "filter" (decoded (data r))) as [items|e].
      * destruct Hspec as [Hshaped _]. congruence.
      * destruct Hspec as [_ [message ->]]. now exists message.
  - intros Hshaped Hnull image.
    pose proof (deleteCatalogStep_run env cfg configured image w) as Hrun.
    cbv zeta in Hrun. rewrite Hrun, Hanswer, removeByFilename_spec.
    now rewrite (imagesArray_shaped "filter" _ Hshaped), Hnull.
Qed.

Lemma unshaped_catalog_is_not_overwritten_witness :
  exists message,
    deleteCatalogStep (runtime := Fixtures.runtimeFor [JNum "42"])
      (Fixtures.scripted [Ok (Fixtures.fileOf "42" "c1")] Fixtures.millis)
      (Fixtures.entry "1_a.png") initialWorld
    = (Throw (JsError message),
       afterFetch (Fixtures.scripted [Ok (Fixtures.fileOf "42" "c1")] Fixtures.millis)
         Fixtures.config metadataPath initialWorld).
Proof.
  exact (proj2 (proj1 (unshaped_catalog_is_not_overwritten
                         (runtime := Fixtures.runtimeFor [JNum "42"])
                         (Fixtures.scripted [Ok (Fixtures.fileOf "42" "c1")]
                            Fixtures.millis)
                         Fixtures.config initialWorld (Fixtures.fileOf "42" "c1")
                         eq_refl eq_refl)
                  eq_refl)
           (Fixtures.entry "1_a.png")).
Defined.

(** X17. Partial failures are not compensated.  When the blob of an upload
    was written and the catalog synchronisation then fails, [uploadImage]
    reports the failure and the blob stays: no [DELETE] follows.  When the
    blob step of a delete went through and the catalog synchronisation then
    fails, [deleteImage] reports the failure, whatever was removed stays
    removed, and the catalog was not written successfully. *)
Theorem partial_failures_are_not_compensated {runtime : Runtime} (env : Env)
    (cfg : Config) (w : World) :
  getConfig env = Ok cfg ->
  (forall file description text response e w2,
      file_dataURL file = Some text ->
      respond env (trace w) (blobWrite cfg (nameIn env w file) (afterComma text))
      = Ok response ->
      uploadCatalogStep env (nameIn env w file) description
        (urlOf cfg (nameIn env w file)) (toISOString (clock env (clockReads w)))
        (data_content_sha response)
        (afterSend (blobWrite cfg (nameIn env w file) (afterComma text))
           (afterTwoReadings w))
      = (Throw e, w2) ->
      uploadImage env file description w
      = (Ok {| upload_success := false; upload_url := None;
               upload_error := Some (getErrorMessage e) |}, w2)
      /\ exists rest,
           trace w2
           = (trace w
              ++ blobWrite cfg (nameIn env w file) (afterComma text) :: rest)%list
           /\ count isDelete rest = 0)
  /\ (forall image e w1 w2,
        deleteBlobStep env cfg image w = (Ok tt, w1) ->
        deleteCatalogStep env image w1 = (Throw e, w2) ->
        deleteImage env image w
        = (Ok {| delete_success := false;
                 delete_error := Some (getErrorMessage e) |}, w2)
        /\ count isDelete (trace w2) = count isDelete (trace w1)).
Proof.
  intros configured. split.
  - intros file description text response e w2 Hreader Hblob Hstep.
    pose proof (uploadImage_run env cfg file description w configured) as Hrun.
    cbv zeta in Hrun. rewrite Hrun, Hreader, Hblob, Hstep.
    split; [reflexivity|].
    pose proof (uploadCatalogStep_single_attempt env cfg
                  (afterSend (blobWrite cfg (nameIn env w file) (afterComma text))
                     (afterTwoReadings w))
                  (nameIn env w file) description (urlOf cfg (nameIn env w file))
                  (toISOString (clock env (clockReads w)))
                  (data_content_sha response) configured) as Hsingle.
    rewrite Hstep in Hsingle.
    destruct Hsingle as [issued [Htrace [_ [Hissued _]]]]. cbn [snd] in Htrace.
    eexists. split.
    + rewrite Htrace. cbn [afterSend afterTwoReadings trace].
      rewrite <- app_assoc. reflexivity.
    + destruct Hissued as [-> | [payload [-> _]]]; reflexivity.
  - intros image e w1 w2 Hblob Hstep.
    rewrite (deleteImage_run env cfg image w configured), Hblob, Hstep.
    split; [reflexivity|].
    pose proof (deleteCatalogStep_single_attempt env cfg w1 image configured)
      as Hsingle.
    rewrite Hstep in Hsingle.
    destruct Hsingle as [issued [Htrace [_ [Hissued _]]]]. cbn [snd] in Htrace.
    rewrite Htrace, count_app.
    destruct Hissued as [-> | [payload [-> _]]]; unfold count; cbn; lia.
Qed.

Lemma partial_failures_are_not_compensated_witness :
  deleteImage (runtime := Fixtures.runtimeFor [])
    (Fixtures.scripted
       [Ok (Fixtures.fileOf "AAAA" "b1"); Ok (Fixtures.fileOf "" "");
        Throw (AxiosError (Some 500%Z) None "Request failed with status code 500")]
       Fixtures.millis)
    (Fixtures.entry "1_a.png") initialWorld
  = (Ok {| delete_success := false;
           delete_error := Some "Request failed with status code 500" |},
     {| trace :=
          [GET "owner/repo" "images/1_a.png" "main" 1700000000000;
           DELETE "owner/repo" "images/1_a.png"
             {| del_message := "Delete image: 1_a.png"; del_sha := "b1";
                del_branch := "main" |};
           GET "owner/repo" "metadata.json" "main" 1700000000001];
        clockReads := 2 |}).
Proof.
  exact (proj1 (proj2 (partial_failures_are_not_compensated
                         (runtime := Fixtures.runtimeFor [])
                         (Fixtures.scripted
                            [Ok (Fixtures.fileOf "AAAA" "b1");
                             Ok (Fixtures.fileOf "" "");
                             Throw (AxiosError (Some 500%Z) None
                                      "Request failed with status code 500")]
                            Fixtures.millis)
                         Fixtures.config initialWorld eq_refl)
                  (Fixtures.entry "1_a.png")
                  (AxiosError (Some 500%Z) None "Request failed with status code 500")
                  {| trace :=
                       [GET "owner/repo" "images/1_a.png" "main" 1700000000000;
                        DELETE "owner/repo" "images/1_a.png"
                          {| del_message := "Delete image: 1_a.png"; del_sha := "b1";
                             del_branch := "main" |}];
                     clockReads := 1 |}
                  {| trace :=
                       [GET "owner/repo" "images/1_a.png" "main" 1700000000000;
                        DELETE "owner/repo" "images/1_a.png"
                          {| del_message := "Delete image: 1_a.png"; del_sha := "b1";
                             del_branch := "main" |};
                        GET "owner/repo" "metadata.json" "main" 1700000000001];
                     clockReads := 2 |}
                  eq_refl eq_refl)).
Defined.

(** ** The course of a delete *)

Lemma catalog_requests_within (env : Env) (cfg : Config) (image : ImageMetadata)
    (w : World) (issued : list Request) :
  issued = [] \/
  (exists payload, issued = [PUT (cfg_repo cfg) metadataPath payload]) ->
  Forall (withinDeleteOf image) (fetchRequest env cfg metadataPath w :: issued)
  /\ List.length (fetchRequest env cfg metadataPath w :: issued) <= 2
  /\ count isDelete (fetchRequest env cfg metadataPath w :: issued) = 0
  /\ count isPut (fetchRequest env cfg metadataPath w :: issued) <= 1.
Proof.
  assert (Hfetch : withinDeleteOf image (fetchRequest env cfg metadataPath w))
    by (now right).
  intros [-> | [payload ->]].
  - split; [now constructor|]. unfold count. cbn. repeat split; lia.
  - split; [constructor; [exact Hfetch | now constructor]|].
    unfold count. cbn. repeat split; lia.
Qed.

(** X18. The requests of a delete.  [deleteImage] sends at most four
    requests.  Each [GET] reads the blob of the image or the catalog, each
    [PUT] writes the catalog (a delete never writes a blob), each [DELETE]
    removes the blob of the image; at most one [DELETE] and at most one
    [PUT] are sent. *)
Theorem delete_requests {runtime : Runtime} (env : Env) (image : ImageMetadata)
    (w : World) :
  exists issued,
    trace (snd (deleteImage env image w)) = (trace w ++ issued)%list
    /\ List.length issued <= 4
    /\ Forall (withinDeleteOf image) issued
    /\ count isDelete issued <= 1
    /\ count isPut issued <= 1.
Proof.
  destruct (getConfig env) as [cfg|e] eqn:configured.
  - rewrite (deleteImage_run env cfg image w configured).
    pose proof (deleteBlobStep_run env cfg image w configured) as Hblob.
    cbv zeta in Hblob. rewrite Hblob. clear Hblob.
    set (lookup := fetchRequest env cfg (imagePathOf (filename image)) w).
    set (w1 := afterFetch env cfg (imagePathOf (filename image)) w).
    assert (Hw1 : trace w1 = (trace w ++ [lookup])%list) by reflexivity.
    assert (Hlookup : withinDeleteOf image lookup) by (now left).
    assert (Hsync : forall w', 
               exists issued,
                 trace (snd (deleteCatalogStep env image w')) = (trace w' ++ issued)%list
                 /\ Forall (withinDeleteOf image) issued
                 /\ List.length issued <= 2
                 /\ count isDelete issued = 0
                 /\ count isPut issued <= 1).
    { intros w'.
      destruct (deleteCatalogStep_single_attempt env cfg w' image configured)
        as [issued [Htrace [_ [Hissued _]]]].
      exists (fetchRequest env cfg metadataPath w' :: issued).
      split; [exact Htrace|].
      apply catalog_requests_within.
      destruct Hissued as [-> | [payload [-> _]]]; eauto. }
    destruct (respond env (trace w) lookup) as [r|e].
    + cbv zeta.
      set (del := DELETE (cfg_repo cfg) (imagePathOf (filename image)) _).
      assert (Hdel : withinDeleteOf image del) by reflexivity.
      destruct (respond env (trace w1) del) as [gone|e].
      * destruct (Hsync (afterSend del w1))
          as [issued [Htrace [Hwithin [Hlen [Hdeletes Hputs]]]]].
        exists (lookup :: del :: issued).
        destruct (deleteCatalogStep env image (afterSend del w1)) as [[res|e] w2];
          cbn [fst snd] in *;
          (split; [rewrite Htrace; cbn [afterSend trace]; rewrite Hw1;
                   now rewrite <- !app_assoc|]);
          (split; [cbn [List.length]; lia|]);
          (split; [now repeat constructor|]);
          unfold count in *; cbn [List.filter isDelete isPut List.length] in *;
          subst lookup del; cbn [fetchRequest isDelete isPut List.filter List.length];
          split; lia.
      * exists [lookup; del]. cbn [fst snd afterSend trace]. rewrite Hw1.
        split; [now rewrite <- app_assoc|].
        split; [cbn; lia|]. split; [now repeat constructor|].
        unfold count. cbn. split; lia.
    + destruct (isNotFound e).
      * destruct (Hsync w1)
          as [issued [Htrace [Hwithin [Hlen [Hdeletes Hputs]]]]].
        exists (lookup :: issued).
        destruct (deleteCatalogStep env image w1) as [[res|e'] w2];
          cbn [fst snd] in *;
          (split; [rewrite Htrace, Hw1; now rewrite <- app_assoc|]);
          (split; [cbn [List.length]; lia|]);
          (split; [now constructor|]);
          unfold count in *; cbn [List.filter isDelete isPut List.length] in *;
          subst lookup; cbn [fetchRequest isDelete isPut List.filter List.length];
          split; lia.
      * exists [lookup]. cbn [fst snd]. rewrite Hw1.
        split; [reflexivity|]. split; [cbn; lia|].
        split; [now repeat constructor|]. unfold count. cbn. split; lia.
  - rewrite (deleteImage_unconfigured env e image w configured).
    exists []. cbn [fst snd]. rewrite app_nil_r.
    split; [reflexivity|]. split; [cbn; lia|]. split; [constructor|].
    unfold count. cbn. split; lia.
Qed.

(** X19. A delete whose blob step fails leaves the catalog alone.  When
    the lookup of the blob fails with anything but a 404, the lookup is the
    only request.  When the lookup finds the blob, the [DELETE] carries the
    sha the lookup returned; when the store refuses it, nothing else is sent:
    the catalog is neither fetched nor written, and the result is the
    failure. *)
Theorem delete_stops_when_blob_step_fails {runtime : Runtime} (env : Env)
    (cfg : Config) (image : ImageMetadata) (w : World) :
  getConfig env = Ok cfg ->
  let lookup := fetchRequest env cfg (imagePathOf (filename image)) w in
  (forall e,
      respond env (trace w) lookup = Throw e -> isNotFound e = false ->
      deleteImage env image w
      = (Ok {| delete_success := false;
               delete_error := Some (getErrorMessage e) |},
         {| trace := trace w ++ [lookup]; clockReads := S (clockReads w) |}))
  /\ (forall r e,
        respond env (trace w) lookup = Ok r ->
        respond env (trace w ++ [lookup])%list
          (blobDelete cfg (filename image) (gh_sha (data r)))
        = Throw e ->
        deleteImage env image w
        = (Ok {| delete_success := false;
                 delete_error := Some (getErrorMessage e) |},
           {| trace := (trace w ++ [lookup])
                       ++ [blobDelete cfg (filename image) (gh_sha (data r))];
              clockReads := S (clockReads w) |})).
Proof.
  intros configured lookup.
  pose proof (deleteBlobStep_run env cfg image w configured) as Hblob.
  cbv zeta in Hblob. fold lookup in Hblob. split.
  - intros e Hanswer Hother.
    rewrite (deleteImage_run env cfg image w configured), Hblob, Hanswer, Hother.
    reflexivity.
  - intros r e Hanswer Hrefused.
    rewrite (deleteImage_run env cfg image w configured), Hblob, Hanswer.
    unfold blobDelete in Hrefused. cbn [afterFetch trace]. fold lookup.
    rewrite Hrefused. reflexivity.
Qed.

Lemma delete_stops_when_blob_step_fails_witness :
  deleteImage (runtime := Fixtures.runtimeFor [])
    (Fixtures.scripted [Ok (Fixtures.fileOf "AAAA" "b1"); Fixtures.conflict]
       Fixtures.millis)
    (Fixtures.entry "1_a.png") initialWorld
  = (Ok {| delete_success := false;
           delete_error := Some "metadata.json does not match" |},
     {| trace :=
          [GET "owner/repo" "images/1_a.png" "main" 1700000000000;
           DELETE "owner/repo" "images/1_a.png"
             {| del_message := "Delete image: 1_a.png"; del_sha := "b1";
                del_branch := "main" |}];
        clockReads := 1 |}).
Proof.
  exact (proj2 (delete_stops_when_blob_step_fails
                  (runtime := Fixtures.runtimeFor [])
                  (Fixtures.scripted
                     [Ok (Fixtures.fileOf "AAAA" "b1"); Fixtures.conflict]
                     Fixtures.millis)
                  Fixtures.config (Fixtures.entry "1_a.png") initialWorld eq_refl)
           (Fixtures.fileOf "AAAA" "b1") Fixtures.conflict_error eq_refl eq_refl).
Defined.

Lemma keepOthers_keeps (c : Catalog) (name : string) (e : ImageMetadata) :
  In e c -> filename e <> name -> In e (keepOthers name c).
Proof.
  intros Hin Hother. apply filter_In. split; [exact Hin|].
  now apply negb_true_iff, String.eqb_neq.
Qed.

(** X20. Deleting a listed image.  Let the catalog resource hold the
    catalog [C].  When the store serves the run, [deleteImage] reports
    success and the catalog it writes back, with the sha of the fetched
    catalog, is [C] without the entries of that filename: the filename is no
    longer listed and every entry of another filename is still there. *)
Theorem delete_of_listed_filename {runtime : Runtime} (env : Env)
    (cfg : Config) (image : ImageMetadata) (C : Catalog) (w w1 : World)
    (r stored : Response) (content encoded : string) :
  let write := writeRequest cfg metadataPath encoded
                 ("Remove image: " ++ filename image) (Some (gh_sha (data r))) in
  getConfig env = Ok cfg ->
  deleteBlobStep env cfg image w = (Ok tt, w1) ->
  respond env (trace w1) (fetchRequest env cfg metadataPath w1) = Ok r ->
  atob (gh_content (data r)) = Ok content ->
  JSON_parse content = Ok (catalogToJs C) ->
  btoa (JSON_stringify (catalogToJs (keepOthers (filename image) C))) = Ok encoded ->
  respond env (trace (afterFetch env cfg metadataPath w1)) write = Ok stored ->
  deleteImage env image w
  = (Ok {| delete_success := true; delete_error := None |},
     afterSend write (afterFetch env cfg metadataPath w1))
  /\ ~ In (filename image) (filenames (keepOthers (filename image) C))
  /\ (forall e, In e C -> filename e <> filename image ->
                In e (keepOthers (filename image) C)).
Proof.
  intros write configured Hblob Hanswer Hatob Hparse Hbtoa Hstored.
  split; [|split; [apply keepOthers_removes|]].
  - rewrite (deleteImage_run env cfg image w configured), Hblob.
    rewrite (deleteCatalogStep_writes_filtered env cfg C w1 r content image
               configured Hanswer Hatob Hparse).
    unfold writeBack. rewrite Hbtoa. cbv zeta. fold write. now rewrite Hstored.
  - intros e. apply keepOthers_keeps.
Qed.

Lemma delete_of_listed_filename_witness :
  fst (deleteImage
         (runtime := Fixtures.runtimeFor
                       [catalogToJs [Fixtures.entry "2_b.png"; Fixtures.entry "1_a.png"]])
         (Fixtures.scripted
            [Ok (Fixtures.fileOf "AAAA" "b2"); Ok (Fixtures.fileOf "" "");
             Ok (Fixtures.fileOf
                   (Fixtures.render
                      (catalogToJs [Fixtures.entry "2_b.png"; Fixtures.entry "1_a.png"]))
                   "c1");
             Ok (Fixtures.fileOf "" "c2")]
            Fixtures.millis)
         (Fixtures.entry "2_b.png") initialWorld)
  = Ok {| delete_success := true; delete_error := None |}.
Proof.
  exact (f_equal fst
           (proj1 (delete_of_listed_filename
                     (runtime := Fixtures.runtimeFor
                                   [catalogToJs [Fixtures.entry "2_b.png";
                                                 Fixtures.entry "1_a.png"]])
                     (Fixtures.scripted
                        [Ok (Fixtures.fileOf "AAAA" "b2"); Ok (Fixtures.fileOf "" "");
                         Ok (Fixtures.fileOf
                               (Fixtures.render
                                  (catalogToJs [Fixtures.entry "2_b.png";
                                                Fixtures.entry "1_a.png"]))
                               "c1");
                         Ok (Fixtures.fileOf "" "c2")]
                        Fixtures.millis)
                     Fixtures.config (Fixtures.entry "2_b.png")
                     [Fixtures.entry "2_b.png"; Fixtures.entry "1_a.png"]
                     initialWorld
                     {| trace :=
                          [GET "owner/repo" "images/2_b.png" "main" 1700000000000;
                           DELETE "owner/repo" "images/2_b.png"
                             {| del_message := "Delete image: 2_b.png";
                                del_sha := "b2"; del_branch := "main" |}];
                        clockReads := 1 |}
                     (Fixtures.fileOf
                        (Fixtures.render
                           (catalogToJs [Fixtures.entry "2_b.png";
                                         Fixtures.entry "1_a.png"]))
                        "c1")
                     (Fixtures.fileOf "" "c2")
                     (Fixtures.render
                        (catalogToJs [Fixtures.entry "2_b.png";
                                      Fixtures.entry "1_a.png"]))
                     (Fixtures.render (catalogToJs [Fixtures.entry "1_a.png"]))
                     eq_refl eq_refl eq_refl eq_refl eq_refl eq_refl eq_refl))).
Defined.

(** ** The two primitives of the store adapter *)

(** X21. The outcomes of [fetchFile].  With a configuration it sends
    exactly one [GET], whose [t] parameter is the current clock reading, and
    reads the clock once.  It returns the file exactly when the store
    answers with one, returns [null] exactly when the store answers with an
    axios error of status 404, and raises the store's error in every other
    case. *)
Theorem fetchFile_outcomes (env : Env) (cfg : Config) (path : string) (w : World) :
  getConfig env = Ok cfg ->
  let request := GET (cfg_repo cfg) path (cfg_branch cfg) (clock env (clockReads w)) in
  snd (fetchFile env path w)
  = {| trace := trace w ++ [request]; clockReads := S (clockReads w) |}
  /\ (forall file,
        fst (fetchFile env path w) = Ok (Some file) <->
        exists r, respond env (trace w) request = Ok r /\ data r = file)
  /\ (fst (fetchFile env path w) = Ok None <->
      exists dataMessage message,
        respond env (trace w) request
        = Throw (AxiosError (Some 404%Z) dataMessage message))
  /\ (forall e,
        fst (fetchFile env path w) = Throw e <->
        respond env (trace w) request = Throw e /\ isNotFound e = false).
Proof.
  intros configured request.
  rewrite (fetchFile_configured env cfg path w configured).
  unfold fetchRequest. fold request. cbn [fst snd].
  split; [reflexivity|].
  destruct (respond env (trace w) request) as [r|e].
  - split; [|split].
    + intros file. split.
      * intros [= <-]. now exists r.
      * intros [r' [[= <-] <-]]. reflexivity.
    + split; [discriminate | intros [d [m H]]; discriminate].
    + intros e. split; [discriminate | intros [H _]; discriminate].
  - destruct (isNotFound e) eqn:Hnotfound.
    + split; [|split].
      * intros file. split; [discriminate | intros [r [H _]]; discriminate].
      * split; [|reflexivity]. intros _.
        destruct e as [[status|] dataMessage message| |]; try discriminate.
        cbn in Hnotfound. apply Z.eqb_eq in Hnotfound. subst. eauto.
      * intros e'. split; [discriminate | intros [[= <-] H]; congruence].
    + split; [|split].
      * intros file. split; [discriminate | intros [r [H _]]; discriminate].
      * split; [discriminate|]. intros [d [m [= ->]]]. discriminate Hnotfound.
      * intros e'. split; [intros [= <-]; auto | intros [[= <-] _]; reflexivity].
Qed.

Lemma fetchFile_outcomes_witness :
  fst (fetchFile (Fixtures.scripted [Fixtures.notFound] Fixtures.millis)
         "images/1_a.png" initialWorld)
  = Ok None.
Proof.
  apply (proj1 (proj2 (proj2
           (fetchFile_outcomes (Fixtures.scripted [Fixtures.notFound] Fixtures.millis)
              Fixtures.config "images/1_a.png" initialWorld eq_refl)))).
  exists (Some "Not Found"), "Request failed with status code 404". reflexivity.
Defined.

(** X22. The outcomes of [createOrUpdateFile].  With a configuration, when
    [btoa] rejects the content nothing is sent and the error of [btoa] is
    raised.  Otherwise exactly one [PUT] is sent, with the encoded content
    and the branch of the configuration; its body has a [sha] exactly when
    one was given that is not the empty string; the clock is not read; the
    result is the store's answer. *)
Theorem createOrUpdateFile_outcomes {runtime : Runtime} (env : Env)
    (cfg : Config) (path content message : string) (sha : option string)
    (w : World) :
  getConfig env = Ok cfg ->
  (forall e,
      btoa content = Throw e ->
      createOrUpdateFile env path content message sha w = (Throw e, w))
  /\ (forall encoded,
        btoa content = Ok encoded ->
        exists payload,
          snd (createOrUpdateFile env path content message sha w)
          = {| trace := trace w ++ [PUT (cfg_repo cfg) path payload];
               clockReads := clockReads w |}
          /\ put_content payload = Some encoded
          /\ put_message payload = message
          /\ put_branch payload = cfg_branch cfg
          /\ (forall s, put_sha payload = Some s <-> sha = Some s /\ s <> "")
          /\ fst (createOrUpdateFile env path content message sha w)
             = match respond env (trace w) (PUT (cfg_repo cfg) path payload) with
               | Ok r => Ok (data r)
               | Throw e => Throw e
               end).
Proof.
  intros configured.
  rewrite (createOrUpdateFile_configured env cfg path content message sha w
             configured).
  split.
  - now intros e ->.
  - intros encoded ->. cbv zeta. unfold writeRequest, afterSend.
    eexists. cbn [fst snd put_content put_message put_branch put_sha].
    split; [reflexivity|]. repeat (split; [reflexivity|]).
    split; [|reflexivity].
    intros s. destruct sha as [[|c given]|]; cbn [Str.truthy].
    + split; [discriminate | intros [[= <-] H]; now contradiction H].
    + split; [intros [= <-]; split; [reflexivity | discriminate]
             | intros [[= <-] _]; reflexivity].
    + split; [discriminate | intros [H _]; discriminate].
Qed.

Lemma createOrUpdateFile_outcomes_witness :
  createOrUpdateFile (runtime := Fixtures.runtimeFor [])
    (Fixtures.scripted [] Fixtures.millis) metadataPath "!" "m" None initialWorld
  = (Throw (JsError "Invalid character"), initialWorld).
Proof.
  exact (proj1 (createOrUpdateFile_outcomes (runtime := Fixtures.runtimeFor [])
                  (Fixtures.scripted [] Fixtures.millis) Fixtures.config
                  metadataPath "!" "m" None initialWorld eq_refl)
           (JsError "Invalid character") eq_refl).
Defined.

(* ================================================================= *)
(** * Properties of the components *)

(** ** The upload form *)

Lemma handleFileSelect_selection (file : File) (st : UploadComponent.State) :
  UploadComponent.selectedFile (UploadComponent.handleFileSelect file st)
  = if valid (validateImageFile file) then Some file
    else UploadComponent.selectedFile st.
Proof.
  unfold UploadComponent.handleFileSelect.
  destruct (valid (validateImageFile file)); cbn [negb]; [|reflexivity].
  destruct (file_dataURL file); reflexivity.
Qed.

Lemma uploadImage_returns {runtime : Runtime} (env : Env) (file : File)
    (description : string) (w : World) :
  exists r w', uploadImage env file description w = (Ok r, w').
Proof.
  unfold uploadImage, tryCatch, ret.
  destruct (uploadBody env file description w) as [[r|e] w']; eauto.
Qed.

Lemma deleteImage_returns {runtime : Runtime} (env : Env) (image : ImageMetadata)
    (w : World) :
  exists r w', deleteImage env image w = (Ok r, w').
Proof.
  unfold deleteImage, tryCatch, ret.
  destruct (deleteBody env image w) as [[r|e] w']; eauto.
Qed.

(** [handleUpload] in terms of the result of [uploadImage]. *)
Lemma handleUpload_run {runtime : Runtime} (env : Env)
    (st : UploadComponent.State) (file : File) (w w' : World) (r : UploadResult) :
  UploadComponent.selectedFile st = Some file ->
  uploadImage env file (UploadComponent.descriptionText st) w = (Ok r, w') ->
  UploadComponent.handleUpload env st w =
    (Ok (if upload_success r && truthyVariable (upload_url r) then
           ({| UploadComponent.selectedFile := None;
               UploadComponent.preview := None;
               UploadComponent.descriptionText := "";
               UploadComponent.isUploading := false;
               UploadComponent.uploadedUrl := upload_url r;
               UploadComponent.message :=
                 Some (successNotice "Image uploaded successfully!");
               UploadComponent.isDragging := UploadComponent.isDragging st;
               UploadComponent.copySuccess := UploadComponent.copySuccess st |},
            true)
         else
           ({| UploadComponent.selectedFile := Some file;
               UploadComponent.preview := UploadComponent.preview st;
               UploadComponent.descriptionText := UploadComponent.descriptionText st;
               UploadComponent.isUploading := false;
               UploadComponent.uploadedUrl := None;
               UploadComponent.message :=
                 Some (errorNotice (orElse (upload_error r) "Upload failed."));
               UploadComponent.isDragging := UploadComponent.isDragging st;
               UploadComponent.copySuccess := UploadComponent.copySuccess st |},
            false)), w').
Proof.
  intros Hselected Hupload.
  destruct st as [selected shown text uploading url note dragging copied].
  cbn [UploadComponent.selectedFile UploadComponent.descriptionText
       UploadComponent.preview UploadComponent.isDragging
       UploadComponent.copySuccess] in *.
  subst selected. unfold UploadComponent.handleUpload.
  cbn [UploadComponent.selectedFile]. unfold bind, tryCatch, ret.
  cbn [UploadComponent.descriptionText UploadComponent.setUploadedUrl
       UploadComponent.setMessage UploadComponent.setIsUploading].
  rewrite Hupload.
  destruct (upload_success r && truthyVariable (upload_url r)); reflexivity.
Qed.

(** X23. Only validated files are uploaded.  In every state the handlers
    of the upload form can produce, the selected file, if there is one, has
    passed [validateImageFile]: its type is one of the three allowed types
    and its size is at most 10 MiB.  [handleUpload] passes exactly this file
    to [uploadImage]. *)
Theorem selected_file_is_valid {runtime : Runtime} (env : Env)
    (st : UploadComponent.State) :
  UploadComponent.Reachable env st ->
  forall file,
    UploadComponent.selectedFile st = Some file ->
    In (file_type file) allowedTypes /\ (file_size file <= maxSize)%N.
Proof.
  intros Hreach.
  assert (Hvalid : forall file,
             UploadComponent.selectedFile st = Some file ->
             valid (validateImageFile file) = true).
  { induction Hreach as [|files st _ IH|files st _ IH|st _ IH|st _ IH
                         |text st _ IH|st _ IH|written st _ IH|st _ IH
                         |st st' called w w' _ IH Hupload].
    - discriminate.
    - destruct files as [[|file' files]|]; cbn [UploadComponent.handleInputChange];
        try exact IH.
      intros file. rewrite handleFileSelect_selection.
      destruct (valid (validateImageFile file')) eqn:Hfile'; [|apply IH].
      now intros [= <-].
    - destruct files as [|file' files]; cbn [UploadComponent.handleDrop];
        [exact IH|].
      intros file. rewrite handleFileSelect_selection.
      destruct (valid (validateImageFile file')) eqn:Hfile'; [|apply IH].
      now intros [= <-].
    - exact IH.
    - exact IH.
    - exact IH.
    - discriminate.
    - unfold UploadComponent.handleCopyUrl.
      destruct (truthyVariable _); [destruct written|]; exact IH.
    - exact IH.
    - destruct (UploadComponent.selectedFile st) as [file'|] eqn:Hselected.
      + destruct (uploadImage_returns env file' (UploadComponent.descriptionText st) w)
          as [r [w'' Hrun]].
        rewrite (handleUpload_run env st file' w w'' r Hselected Hrun) in Hupload.
        injection Hupload as Hst' _.
        destruct (upload_success r && truthyVariable (upload_url r));
          injection Hst' as <- _; cbn [UploadComponent.selectedFile];
          [discriminate|].
        intros file [= <-]. now apply IH.
      + unfold UploadComponent.handleUpload in Hupload.
        rewrite Hselected in Hupload. injection Hupload as <- _ _.
        cbn [UploadComponent.selectedFile UploadComponent.setMessage].
        rewrite Hselected. discriminate. }
  intros file Hselected. specialize (Hvalid file Hselected).
  unfold validateImageFile in Hvalid.
  destruct (includes allowedTypes (file_type file)) eqn:Htype;
    cbn [negb] in Hvalid; [|discriminate].
  destruct (N.ltb_spec maxSize (file_size file)); [discriminate|].
  split; [now apply includes_In | assumption].
Qed.

Lemma selected_file_is_valid_witness :
  In "image/png" allowedTypes /\ (2048 <= maxSize)%N.
Proof.
  exact (selected_file_is_valid (runtime := Fixtures.runtimeFor [])
           (Fixtures.scripted [] Fixtures.millis)
           (UploadComponent.handleInputChange (Some [Fixtures.photo])
              UploadComponent.initial)
           (UploadComponent.reach_input (runtime := Fixtures.runtimeFor [])
              (Fixtures.scripted [] Fixtures.millis) (Some [Fixtures.photo])
              UploadComponent.initial
              (UploadComponent.reach_initial (runtime := Fixtures.runtimeFor [])
                 (Fixtures.scripted [] Fixtures.millis)))
           Fixtures.photo eq_refl).
Defined.

(** X24. What [handleUpload] leaves behind.  It never raises and always
    ends with [isUploading] off.  Without a selected file it sends nothing
    and asks for one.  With one, it runs [uploadImage] on that file and the
    typed description; when the result is a success with a non-empty url,
    the url is shown, the selection, the preview and the description are
    cleared and [onUploadSuccess] is called; otherwise the selection, the
    preview and the description are kept, no url is shown, the message is
    the error of the result (or "Upload failed." when that is empty), and
    [onUploadSuccess] is not called. *)
Theorem handleUpload_outcome {runtime : Runtime} (env : Env)
    (st : UploadComponent.State) (w : World) :
  (UploadComponent.selectedFile st = None ->
   UploadComponent.handleUpload env st w
   = (Ok (UploadComponent.setMessage
            (Some (errorNotice "Please select an image to upload.")) st, false), w))
  /\ (forall file,
        UploadComponent.selectedFile st = Some file ->
        exists r st' called,
          uploadImage env file (UploadComponent.descriptionText st) w
          = (Ok r, snd (UploadComponent.handleUpload env st w))
          /\ fst (UploadComponent.handleUpload env st w) = Ok (st', called)
          /\ UploadComponent.isUploading st' = false
          /\ (called = true <->
              upload_success r = true /\ truthyVariable (upload_url r) = true)
          /\ (called = true ->
              UploadComponent.uploadedUrl st' = upload_url r
              /\ UploadComponent.selectedFile st' = None
              /\ UploadComponent.preview st' = None
              /\ UploadComponent.descriptionText st' = ""
              /\ UploadComponent.message st'
                 = Some (successNotice "Image uploaded successfully!"))
          /\ (called = false ->
              UploadComponent.uploadedUrl st' = None
              /\ UploadComponent.selectedFile st' = Some file
              /\ UploadComponent.preview st' = UploadComponent.preview st
              /\ UploadComponent.descriptionText st'
                 = UploadComponent.descriptionText st
              /\ UploadComponent.message st'
                 = Some (errorNotice (orElse (upload_error r) "Upload failed.")))).
Proof.
  split.
  - intros Hnone. unfold UploadComponent.handleUpload. now rewrite Hnone.
  - intros file Hselected.
    destruct (uploadImage_returns env file (UploadComponent.descriptionText st) w)
      as [r [w' Hrun]].
    rewrite (handleUpload_run env st file w w' r Hselected Hrun). cbn [fst snd].
    exists r.
    destruct (upload_success r && truthyVariable (upload_url r)) eqn:Hok.
    + eexists. exists true. split; [exact Hrun|]. split; [reflexivity|].
      cbn [UploadComponent.selectedFile UploadComponent.preview
           UploadComponent.descriptionText UploadComponent.isUploading
           UploadComponent.uploadedUrl UploadComponent.message].
      apply andb_true_iff in Hok.
      split; [reflexivity|]. split; [tauto|]. split; [|discriminate].
      intros _. repeat split.
    + eexists. exists false. split; [exact Hrun|]. split; [reflexivity|].
      cbn [UploadComponent.selectedFile UploadComponent.preview
           UploadComponent.descriptionText UploadComponent.isUploading
           UploadComponent.uploadedUrl UploadComponent.message].
      apply andb_false_iff in Hok.
      split; [reflexivity|].
      split; [split; [discriminate | intros [H1 H2]; destruct Hok; congruence]|].
      split; [discriminate|]. intros _. repeat split.
Qed.

(** ** The gallery *)

Lemma fetchMetadata_returns {runtime : Runtime} (env : Env) (w : World) :
  exists v w', fetchMetadata env w = (Ok v, w').
Proof.
  unfold fetchMetadata, tryCatch, bind, lift, ret.
  destruct (fetchFile env metadataPath w) as [[[file|]|e] w']; eauto.
  destruct (atob (gh_content file)) as [content|]; eauto.
  destruct (JSON_parse content); eauto.
Qed.

Lemma imagesOrEmpty_throws (numberIsZero : string -> bool) (v : JsValue) :
  (exists e, GalleryComponent.imagesOrEmpty numberIsZero v = Throw e) <-> v = JNull.
Proof.
  unfold GalleryComponent.imagesOrEmpty. split.
  - intros [e H]. destruct v as [| | | | |fields]; cbn [Js.get] in H;
      try discriminate; [reflexivity|].
    destruct (Js.assoc "images" fields); discriminate.
  - intros ->. cbn. eauto.
Qed.

(** X25. What [loadImages] leaves behind.  It never raises and always ends
    with [isLoading] off.  The error banner is set exactly when the catalog
    document is the JSON value [null]; in every other case [images] becomes
    [metadata.images || []] and no error is shown.  In particular a failed
    fetch of any kind (no configuration, no authorisation, no network) and
    an absent or undecodable catalog all show an empty gallery without an
    error, and a well-formed catalog shows its entries in order. *)
Theorem loadImages_outcome {runtime : Runtime} (env : Env)
    (numberIsZero : string -> bool) (st : GalleryComponent.State) (w : World) :
  exists v,
    fst (fetchMetadata env w) = Ok v
    /\ GalleryComponent.loadImages env numberIsZero st w
       = (Ok match GalleryComponent.imagesOrEmpty numberIsZero v with
             | Ok value =>
                 {| GalleryComponent.images := value;
                    GalleryComponent.isLoading := false;
                    GalleryComponent.error := None;
                    GalleryComponent.deletingImage :=
                      GalleryComponent.deletingImage st;
                    GalleryComponent.deleteMessage :=
                      GalleryComponent.deleteMessage st |}
             | Throw _ =>
                 {| GalleryComponent.images := GalleryComponent.images st;
                    GalleryComponent.isLoading := false;
                    GalleryComponent.error :=
                      Some "Failed to load images. Please check your configuration.";
                    GalleryComponent.deletingImage :=
                      GalleryComponent.deletingImage st;
                    GalleryComponent.deleteMessage :=
                      GalleryComponent.deleteMessage st |}
             end, snd (fetchMetadata env w))
    /\ ((exists e, GalleryComponent.imagesOrEmpty numberIsZero v = Throw e)
        <-> v = JNull)
    /\ (forall C, v = catalogToJs C ->
          GalleryComponent.imagesOrEmpty numberIsZero v
          = Ok (JArr (List.map imageToJs C)))
    /\ ((forall file w', fetchFile env metadataPath w <> (Ok (Some file), w')) ->
        GalleryComponent.imagesOrEmpty numberIsZero v = Ok (JArr [])).
Proof.
  destruct (fetchMetadata_returns env w) as [v [w' Hfetch]].
  exists v. rewrite Hfetch. cbn [fst snd].
  split; [reflexivity|]. split; [|split; [apply imagesOrEmpty_throws|split]].
  - destruct st as [shown loading failure deleting note].
    unfold GalleryComponent.loadImages, bind, tryCatch, lift, ret.
    rewrite Hfetch.
    destruct (GalleryComponent.imagesOrEmpty numberIsZero v); reflexivity.
  - intros C ->. reflexivity.
  - intros Hnofile.
    unfold fetchMetadata, tryCatch, bind, lift, ret in Hfetch.
    destruct (fetchFile env metadataPath w) as [[[file|]|e] w1] eqn:Hfile.
    + exfalso. now apply (Hnofile file w1).
    + injection Hfetch as <- _. reflexivity.
    + injection Hfetch as <- _. reflexivity.
Qed.

Lemma withoutImage_entries (C : Catalog) (name : string) :
  GalleryComponent.withoutImage name (JArr (List.map imageToJs C))
  = Ok (JArr (List.map imageToJs (keepOthers name C))).
Proof.
  unfold GalleryComponent.withoutImage. now rewrite filterByFilename_entries.
Qed.

(** X26. What [handleDelete] leaves behind when the gallery shows the
    entries of a catalog [C].  It never raises and always ends with
    [deletingImage] cleared.  When [deleteImage] reports success the gallery
    shows [C] without the entries of that filename, the very catalog that
    [deleteImage] wrote back when the stored catalog was [C], and the
    success message; otherwise the list is left as it was and the message
    is the error of the result (or "Failed to delete image." when that is
    empty). *)
Theorem handleDelete_outcome {runtime : Runtime} (env : Env)
    (image : ImageMetadata) (C : Catalog) (st : GalleryComponent.State)
    (w : World) :
  GalleryComponent.images st = JArr (List.map imageToJs C) ->
  exists r,
    fst (deleteImage env image w) = Ok r
    /\ GalleryComponent.handleDelete env image st w
       = (Ok (if delete_success r then
                {| GalleryComponent.images :=
                     JArr (List.map imageToJs (keepOthers (filename image) C));
                   GalleryComponent.isLoading := GalleryComponent.isLoading st;
                   GalleryComponent.error := GalleryComponent.error st;
                   GalleryComponent.deletingImage := None;
                   GalleryComponent.deleteMessage :=
                     Some (successNotice "Image deleted successfully!") |}
              else
                {| GalleryComponent.images := JArr (List.map imageToJs C);
                   GalleryComponent.isLoading := GalleryComponent.isLoading st;
                   GalleryComponent.error := GalleryComponent.error st;
                   GalleryComponent.deletingImage := None;
                   GalleryComponent.deleteMessage :=
                     Some (errorNotice
                             (orElse (delete_error r) "Failed to delete image.")) |}),
          snd (deleteImage env image w)).
Proof.
  intros Hshown.
  destruct (deleteImage_returns env image w) as [r [w' Hrun]].
  exists r. rewrite Hrun. cbn [fst snd]. split; [reflexivity|].
  destruct st as [shown loading failure deleting note].
  cbn [GalleryComponent.images GalleryComponent.isLoading GalleryComponent.error]
    in *.
  subst shown.
  unfold GalleryComponent.handleDelete, bind, tryCatch, lift, ret.
  rewrite Hrun.
  destruct (delete_success r); cbn [fst snd]; [|reflexivity].
  cbn [GalleryComponent.images GalleryComponent.setDeletingImage
       GalleryComponent.setDeleteMessage].
  now rewrite withoutImage_entries.
Qed.

Lemma handleDelete_outcome_witness :
  exists r,
    fst (deleteImage (runtime := Fixtures.runtimeFor [])
           (Fixtures.scripted [Fixtures.notFound; Fixtures.notFound] Fixtures.millis)
           (Fixtures.entry "1_a.png") initialWorld)
    = Ok r
    /\ GalleryComponent.handleDelete (runtime := Fixtures.runtimeFor [])
         (Fixtures.scripted [Fixtures.notFound; Fixtures.notFound] Fixtures.millis)
         (Fixtures.entry "1_a.png")
         (GalleryComponent.setImages
            (JArr (List.map imageToJs [Fixtures.entry "2_b.png"; Fixtures.entry "1_a.png"]))
            GalleryComponent.initial)
         initialWorld
       = (Ok (if delete_success r then
                {| GalleryComponent.images :=
                     JArr (List.map imageToJs
                             (keepOthers "1_a.png"
                                [Fixtures.entry "2_b.png"; Fixtures.entry "1_a.png"]));
                   GalleryComponent.isLoading := true;
                   GalleryComponent.error := None;
                   GalleryComponent.deletingImage := None;
                   GalleryComponent.deleteMessage :=
                     Some (successNotice "Image deleted successfully!") |}
              else
                {| GalleryComponent.images :=
                     JArr (List.map imageToJs
                             [Fixtures.entry "2_b.png"; Fixtures.entry "1_a.png"]);
                   GalleryComponent.isLoading := true;
                   GalleryComponent.error := None;
                   GalleryComponent.deletingImage := None;
                   GalleryComponent.deleteMessage :=
                     Some (errorNotice
                             (orElse (delete_error r) "Failed to delete image.")) |}),
          snd (deleteImage (runtime := Fixtures.runtimeFor [])
                 (Fixtures.scripted [Fixtures.notFound; Fixtures.notFound]
                    Fixtures.millis)
                 (Fixtures.entry "1_a.png") initialWorld)).
Proof.
  exact (handleDelete_outcome (runtime := Fixtures.runtimeFor [])
           (Fixtures.scripted [Fixtures.notFound; Fixtures.notFound] Fixtures.millis)
           (Fixtures.entry "1_a.png")
           [Fixtures.entry "2_b.png"; Fixtures.entry "1_a.png"]
           (GalleryComponent.setImages
              (JArr (List.map imageToJs
                       [Fixtures.entry "2_b.png"; Fixtures.entry "1_a.png"]))
              GalleryComponent.initial)
           initialWorld eq_refl).
Defined.

Lemma fetchMetadata_world {runtime : Runtime} (env : Env) (w : World) :
  snd (fetchMetadata env w)
  = match getConfig env with
    | Ok cfg => afterFetch env cfg metadataPath w
    | Throw _ => w
    end.
Proof.
  unfold fetchMetadata, tryCatch, bind, lift, ret.
  destruct (getConfig env) as [cfg|e] eqn:configured.
  - rewrite (fetchFile_configured env cfg metadataPath w configured).
    destruct (respond env (trace w) _) as [r|e].
    + destruct (atob (gh_content (data r))) as [content|]; [|reflexivity].
      destruct (JSON_parse content); reflexivity.
    + destruct (isNotFound e); reflexivity.
  - now rewrite (fetchFile_unconfigured env e metadataPath w configured).
Qed.

Lemma loadImages_world {runtime : Runtime} (env : Env)
    (numberIsZero : string -> bool) (st : GalleryComponent.State) (w : World) :
  snd (GalleryComponent.loadImages env numberIsZero st w) = snd (fetchMetadata env w).
Proof.
  destruct (fetchMetadata_returns env w) as [v [w' Hfetch]].
  unfold GalleryComponent.loadImages, bind, tryCatch, lift, ret.
  rewrite Hfetch.
  destruct (GalleryComponent.imagesOrEmpty numberIsZero v); reflexivity.
Qed.

(** X27. Loading is read-only.  [fetchMetadata], and with it the gallery's
    [loadImages], sends nothing when there is no configuration and otherwise
    exactly one request, the [GET] of [metadata.json] whose [t] parameter is
    the current clock reading; neither ever sends a [PUT] or a [DELETE]. *)
Theorem loading_is_read_only {runtime : Runtime} (env : Env)
    (numberIsZero : string -> bool) (st : GalleryComponent.State) (w : World) :
  snd (GalleryComponent.loadImages env numberIsZero st w) = snd (fetchMetadata env w)
  /\ exists issued,
       trace (snd (fetchMetadata env w)) = (trace w ++ issued)%list
       /\ (hasConfig env = false -> issued = [])
       /\ (forall cfg, getConfig env = Ok cfg ->
             issued = [GET (cfg_repo cfg) metadataPath (cfg_branch cfg)
                         (clock env (clockReads w))])
       /\ count isPut issued = 0
       /\ count isDelete issued = 0.
Proof.
  split; [apply loadImages_world|].
  rewrite fetchMetadata_world.
  pose proof (getConfig_hasConfig env) as Hguard.
  destruct (getConfig env) as [cfg|e].
  - exists [fetchRequest env cfg metadataPath w].
    destruct Hguard as [Hhas _].
    split; [reflexivity|]. split; [congruence|].
    split; [now intros cfg' [= <-]|]. split; reflexivity.
  - exists []. split; [now rewrite app_nil_r|]. split; [reflexivity|].
    split; [discriminate|]. split; reflexivity.
Qed.
